(** * xknob.js: a rotary knob custom element

    A shallow embedding of [src/xknob.js] and the properties of its value
    sanitisation and of its drag handlers.

    Conventions of the model.
    - A JavaScript number is a [number]: NaN, the two infinities, or a finite
      value, which is a real number of [R].  The operations of [Num] and
      [Math] are exact: the rounding of a result to the nearest number
      that the engine can hold, its overflow to an infinity and the sign of
      zero are not modelled; [Math.PI] is [PI].  [parseInt] and [parseFloat]
      do read a literal beyond the largest number as an infinity.
    - Where a statement is about what the arithmetic gives, the arithmetic
      is a parameter ([Arithmetic]) and the statement holds for every
      multiplication, division and rounding.
    - [null] is [None]; a private field that holds a number or [null] is an
      [option number].
    - The handlers mutate module-level variables, widgets and the listener
      table of the document: all of these are fields of [World], which every
      handler takes and returns.
    - Dispatched events and failed console assertions are appended to logs
      kept in the [World], oldest first. *)

From Stdlib Require Import Reals Lra Lia ZArith List String Ascii Bool.
Import ListNotations.

Local Open Scope R_scope.

(** ** Numbers *)

Inductive number : Type :=
| NaN
| PInf
| NInf
| Fin (r : R).

Definition Rltb (a b : R) : bool := if Rlt_dec a b then true else false.
Definition Rleb (a b : R) : bool := if Rle_dec a b then true else false.
Definition Req_b (a b : R) : bool := if Req_dec_T a b then true else false.

Module Num.

(** [Number.isFinite(x)] and [isNaN(x)] on a number. *)
Definition isFinite (x : number) : bool :=
  match x with Fin _ => true | _ => false end.

Definition isNaN (x : number) : bool :=
  match x with NaN => true | _ => false end.

Definition neg (x : number) : number :=
  match x with
  | NaN => NaN
  | PInf => NInf
  | NInf => PInf
  | Fin r => Fin (- r)
  end.

(** [x + y] *)
Definition add (x y : number) : number :=
  match x, y with
  | NaN, _ | _, NaN => NaN
  | PInf, NInf | NInf, PInf => NaN
  | PInf, _ | _, PInf => PInf
  | NInf, _ | _, NInf => NInf
  | Fin a, Fin b => Fin (a + b)
  end.

(** [x - y] *)
Definition sub (x y : number) : number := add x (neg y).

(** The infinity of the sign of [s * r], for an infinite factor of sign
    [s] ([true] is negative) and a finite non-zero factor [r]. *)
Definition inf_of_sign (negative : bool) : number :=
  if negative then NInf else PInf.

(** [x * y] *)
Definition mul (x y : number) : number :=
  match x, y with
  | NaN, _ | _, NaN => NaN
  | Fin a, Fin b => Fin (a * b)
  | PInf, PInf | NInf, NInf => PInf
  | PInf, NInf | NInf, PInf => NInf
  | PInf, Fin r | Fin r, PInf =>
      if Req_b r 0 then NaN else inf_of_sign (Rltb r 0)
  | NInf, Fin r | Fin r, NInf =>
      if Req_b r 0 then NaN else inf_of_sign (negb (Rltb r 0))
  end.

(** [x / y]; the only zero is the positive one. *)
Definition div (x y : number) : number :=
  match x, y with
  | NaN, _ | _, NaN => NaN
  | Fin a, Fin b =>
      if Req_b b 0
      then (if Req_b a 0 then NaN else inf_of_sign (Rltb a 0))
      else Fin (a / b)
  | Fin _, (PInf | NInf) => Fin 0
  | (PInf | NInf), (PInf | NInf) => NaN
  | PInf, Fin b => inf_of_sign (Rltb b 0)
  | NInf, Fin b => inf_of_sign (negb (Rltb b 0))
  end.

(** [x < y]: false as soon as one side is NaN. *)
Definition lt (x y : number) : bool :=
  match x, y with
  | NaN, _ | _, NaN => false
  | Fin a, Fin b => Rltb a b
  | NInf, (PInf | Fin _) => true
  | Fin _, PInf => true
  | _, _ => false
  end.

(** [x <= y] *)
Definition le (x y : number) : bool :=
  match x, y with
  | NaN, _ | _, NaN => false
  | Fin a, Fin b => Rleb a b
  | NInf, _ => true
  | _, PInf => true
  | _, _ => false
  end.

(** [x > y] and [x >= y] *)
Definition gt (x y : number) : bool := lt y x.
Definition ge (x y : number) : bool := le y x.

(** [x === y] and [x !== y] on numbers: NaN equals nothing. *)
Definition strict_eq (x y : number) : bool :=
  match x, y with
  | Fin a, Fin b => Req_b a b
  | PInf, PInf | NInf, NInf => true
  | _, _ => false
  end.

Definition strict_neq (x y : number) : bool := negb (strict_eq x y).

End Num.

Declare Scope js_scope.
Delimit Scope js_scope with js.
Bind Scope js_scope with number.
Infix "+" := Num.add : js_scope.
Infix "-" := Num.sub : js_scope.
Infix "*" := Num.mul : js_scope.
Infix "/" := Num.div : js_scope.
Infix "<?" := Num.lt (at level 70) : js_scope.
Infix "<=?" := Num.le (at level 70) : js_scope.
Infix ">?" := Num.gt (at level 70) : js_scope.
Infix ">=?" := Num.ge (at level 70) : js_scope.
Infix "!==" := Num.strict_neq (at level 70) : js_scope.

(** ** The [Math] object *)

Module Math.

Definition PI : number := Fin Rtrigo1.PI.

(** [Math.round(x)]: the integer nearest to [x], a tie going up. *)
Definition round (x : number) : number :=
  match x with
  | Fin r => Fin (IZR (Int_part (r + / 2)))
  | _ => x
  end.

(** The angle of the point [(x, y)] seen from the origin, in the interval
    from [-PI] (excluded) to [PI] (included). *)
Definition atan2R (y x : R) : R :=
  if Rltb 0 x then atan (y / x)
  else if Rltb x 0 then
    (if Rleb 0 y then atan (y / x) + Rtrigo1.PI else atan (y / x) - Rtrigo1.PI)
  else if Rltb 0 y then Rtrigo1.PI / 2
  else if Rltb y 0 then - (Rtrigo1.PI / 2)
  else 0.

(** [Math.atan2(y, x)] *)
Definition atan2 (y x : number) : number :=
  match y, x with
  | NaN, _ | _, NaN => NaN
  | Fin b, Fin a => Fin (atan2R b a)
  | PInf, Fin _ => Fin (Rtrigo1.PI / 2)
  | NInf, Fin _ => Fin (- (Rtrigo1.PI / 2))
  | PInf, PInf => Fin (Rtrigo1.PI / 4)
  | NInf, PInf => Fin (- (Rtrigo1.PI / 4))
  | PInf, NInf => Fin (3 * Rtrigo1.PI / 4)
  | NInf, NInf => Fin (- (3 * Rtrigo1.PI / 4))
  | Fin _, PInf => Fin 0
  | Fin b, NInf => if Rltb b 0 then Fin (- Rtrigo1.PI) else Fin Rtrigo1.PI
  end.

End Math.

(** ** [parseInt] and [parseFloat]

    Both read a prefix of the string form of their argument. *)

Local Open Scope string_scope.

Definition is_whitespace (c : ascii) : bool :=
  let n := nat_of_ascii c in
  (Nat.leb 9 n && Nat.leb n 13) || Nat.eqb n 32.

Fixpoint trim_start (s : string) : string :=
  match s with
  | String c rest => if is_whitespace c then trim_start rest else s
  | EmptyString => s
  end.

(** An optional sign: whether it is a minus, and what follows it. *)
Definition read_sign (s : string) : bool * string :=
  match s with
  | String "-" rest => (true, rest)
  | String "+" rest => (false, rest)
  | _ => (false, s)
  end.

Definition digit_of (c : ascii) : option Z :=
  let n := nat_of_ascii c in
  if Nat.leb 48 n && Nat.leb n 57 then Some (Z.of_nat (n - 48)) else None.

(** The longest prefix of decimal digits, and what follows it. *)
Fixpoint read_digits (s : string) : list Z * string :=
  match s with
  | String c rest =>
      match digit_of c with
      | Some d => let (ds, tl) := read_digits rest in (d :: ds, tl)
      | None => ([], s)
      end
  | EmptyString => ([], s)
  end.

Definition digits_value (ds : list Z) : Z :=
  fold_left (fun acc d => (10 * acc + d)%Z) ds 0%Z.

Definition signed (negative : bool) (z : Z) : Z :=
  if negative then (- z)%Z else z.

(** A decimal literal whose magnitude is [2^1024 - 2^970] or more is
    beyond the largest number and reads as an infinity. *)
Definition overflow_threshold : Z := (2 ^ 1024 - 2 ^ 970)%Z.

(** The number that the integer [z] reads as (below the threshold, its
    rounding to the nearest number is not modelled). *)
Definition integer_number (z : Z) : number :=
  if (overflow_threshold <=? Z.abs z)%Z
  then Num.inf_of_sign (z <? 0)%Z
  else Fin (IZR z).

(** The number that the decimal [m * 10 ^ e] reads as. *)
Definition decimal_number (m e : Z) : number :=
  let overflows :=
    if (0 <=? e)%Z
    then (overflow_threshold <=? Z.abs m * 10 ^ e)%Z
    else (overflow_threshold * 10 ^ (- e) <=? Z.abs m)%Z in
  if overflows
  then Num.inf_of_sign (m <? 0)%Z
  else Fin (IZR m * powerRZ 10 e).

(** [parseInt(s, 10)] *)
Definition parseInt10 (s : string) : number :=
  let (negative, s1) := read_sign (trim_start s) in
  match read_digits s1 with
  | ([], _) => NaN
  | (ds, _) => integer_number (signed negative (digits_value ds))
  end.

(** The exponent part of a decimal literal, [0] when there is none. *)
Definition read_exponent (s : string) : Z :=
  match s with
  | String c rest =>
      if (Ascii.eqb c "e" || Ascii.eqb c "E")%bool then
        let (negative, s1) := read_sign rest in
        match read_digits s1 with
        | ([], _) => 0%Z
        | (ds, _) => signed negative (digits_value ds)
        end
      else 0%Z
  | EmptyString => 0%Z
  end.

(** [parseFloat(s)] *)
Definition parseFloat_string (s : string) : number :=
  let (negative, s1) := read_sign (trim_start s) in
  if String.prefix "Infinity" s1 then Num.inf_of_sign negative
  else
    let (ip, s2) := read_digits s1 in
    let (fp, s3) :=
      match s2 with
      | String "." rest => read_digits rest
      | _ => ([], s2)
      end in
    match (ip ++ fp)%list with
    | [] => NaN
    | ds =>
        decimal_number (signed negative (digits_value ds))
                       (read_exponent s3 - Z.of_nat (List.length fp))
    end.

(** A value handed to a property setter: a number or a string. *)
Inductive jsval : Type :=
| JNum (n : number)
| JStr (s : string).

(** [parseFloat(x)].  A number is first printed and then read back, which
    gives the number itself. *)
Definition parseFloat (x : jsval) : number :=
  match x with
  | JNum n => n
  | JStr s => parseFloat_string s
  end.

Local Close Scope string_scope.

(** ** Convenience functions to sanitize numbers

    [float_or_default] is used with the default [0] (the result is a number,
    [of_number] is the identity) and with the default [null] (the result is
    a number or [null], [of_number] is [Some]). *)

Definition float_or_default {A : Type} (of_number : number -> A)
    (x : jsval) (def : A) : A :=
  let x := parseFloat x in
  if Num.isNaN x then def else of_number x.

(** [x] is the string form of the argument, which is what [parseInt] reads;
    an attribute is a string already. *)
Definition int_or_default (x : string) (def : number) : number :=
  let x := parseInt10 x in
  if Num.isNaN x then def else x.

(** ** The XKnob element *)

(** Nodes on which listeners are registered (documents, elements). *)
Definition target_id : Type := nat.

Record XKnob : Type := mkXKnob {
  _divisions : number;
  _min : option number;
  _max : option number;
  _svgusehref : option string;
  _value : number;
  (** The [.knob_gfx] element of the shadow root, when there is one, with the
      angle [a] of its style [transform: rotate(a deg)], when it is set. *)
  knob_gfx : option (option number);
  ownerDocument : target_id
}.

Definition with_divisions (k : XKnob) (d : number) : XKnob :=
  mkXKnob d (_min k) (_max k) (_svgusehref k) (_value k) (knob_gfx k)
          (ownerDocument k).

Definition with_min (k : XKnob) (m : option number) : XKnob :=
  mkXKnob (_divisions k) m (_max k) (_svgusehref k) (_value k) (knob_gfx k)
          (ownerDocument k).

Definition with_max (k : XKnob) (m : option number) : XKnob :=
  mkXKnob (_divisions k) (_min k) m (_svgusehref k) (_value k) (knob_gfx k)
          (ownerDocument k).

Definition with_svgusehref (k : XKnob) (s : option string) : XKnob :=
  mkXKnob (_divisions k) (_min k) (_max k) s (_value k) (knob_gfx k)
          (ownerDocument k).

Definition with_value (k : XKnob) (v : number) : XKnob :=
  mkXKnob (_divisions k) (_min k) (_max k) (_svgusehref k) v (knob_gfx k)
          (ownerDocument k).

Definition with_knob_gfx (k : XKnob) (g : option (option number)) : XKnob :=
  mkXKnob (_divisions k) (_min k) (_max k) (_svgusehref k) (_value k) g
          (ownerDocument k).

Local Open Scope js_scope.

Definition _update_gfx_rotation (k : XKnob) : XKnob :=
  match knob_gfx k with
  | Some _ => with_knob_gfx k (Some (Some (_value k * Fin 360)))
  | None => k
  end.

Definition _update_value (k : XKnob) : XKnob :=
  (* Sanity check. *)
  let k :=
    if negb (Num.isFinite (_value k)) then with_value k (Fin 0) else k in
  (* Snapping to one of the circle divisions. *)
  let k :=
    if Num.isFinite (_divisions k) && (_divisions k >=? Fin 2)
    then with_value k (Math.round (_value k * _divisions k) / _divisions k)
    else k in
  (* Clamping to the defined min..max range; [Number.isFinite(null)] is
     false. *)
  let k :=
    match _max k with
    | Some max =>
        if Num.isFinite max && (_value k >? max) then with_value k max else k
    | None => k
    end in
  let k :=
    match _min k with
    | Some min =>
        if Num.isFinite min && (_value k <? min) then with_value k min else k
    | None => k
    end in
  _update_gfx_rotation k.

(** Both branches build a tree that holds a [.knob_gfx] element, new and
    without a transform. *)
Definition _update_innerHTML (k : XKnob) : XKnob :=
  _update_gfx_rotation (with_knob_gfx k (Some None)).

(** *** Properties: getters and setters *)

Definition get_divisions (k : XKnob) : number := _divisions k.
Definition get_min (k : XKnob) : option number := _min k.
Definition get_max (k : XKnob) : option number := _max k.
Definition get_value (k : XKnob) : number := _value k.

Definition set_divisions (x : string) (k : XKnob) : XKnob :=
  _update_value (with_divisions k (int_or_default x (Fin 0))).

Definition set_min (x : jsval) (k : XKnob) : XKnob :=
  _update_value (with_min k (float_or_default Some x None)).

Definition set_max (x : jsval) (k : XKnob) : XKnob :=
  _update_value (with_max k (float_or_default Some x None)).

Definition set_svgusehref (x : string) (k : XKnob) : XKnob :=
  _update_innerHTML (with_svgusehref k (Some x)).

Definition set_value (x : jsval) (k : XKnob) : XKnob :=
  _update_value (with_value k (float_or_default (fun n => n) x (Fin 0))).

(** The attributes of the element when it is created. *)
Record Attributes : Type := mkAttributes {
  attr_divisions : option string;
  attr_min : option string;
  attr_max : option string;
  attr_svgusehref : option string;
  attr_value : option string
}.

Definition set_if_present {A : Type} (attr : option A)
    (setter : A -> XKnob -> XKnob) (k : XKnob) : XKnob :=
  match attr with
  | Some a => setter a k
  | None => k
  end.

Definition createdCallback (attrs : Attributes) (doc : target_id) : XKnob :=
  (* Default values for private vars. *)
  let k := mkXKnob (Fin 0) None None None (Fin 0) None doc in
  (* Setting values from attributes. *)
  let k := set_if_present (attr_divisions attrs) set_divisions k in
  let k := set_if_present (attr_min attrs) (fun a => set_min (JStr a)) k in
  let k := set_if_present (attr_max attrs) (fun a => set_max (JStr a)) k in
  let k := set_if_present (attr_svgusehref attrs) set_svgusehref k in
  let k := set_if_present (attr_value attrs) (fun a => set_value (JStr a)) k in
  match _svgusehref k with
  | None => _update_innerHTML k
  | Some _ => k
  end.

(** Assignments to the properties of an element after its creation. *)
Inductive assignment : Type :=
| AssignDivisions (x : string)
| AssignMin (x : jsval)
| AssignMax (x : jsval)
| AssignSvgusehref (x : string)
| AssignValue (x : jsval).

Definition assign (k : XKnob) (a : assignment) : XKnob :=
  match a with
  | AssignDivisions x => set_divisions x k
  | AssignMin x => set_min x k
  | AssignMax x => set_max x k
  | AssignSvgusehref x => set_svgusehref x k
  | AssignValue x => set_value x k
  end.

Definition assign_all (k : XKnob) (l : list assignment) : XKnob :=
  fold_left assign l k.

(** *** [attributeChangedCallback] *)

(** [c.toLowerCase()] on the letters A to Z. *)
Definition lower_char (c : ascii) : ascii :=
  let n := nat_of_ascii c in
  if Nat.leb 65 n && Nat.leb n 90 then ascii_of_nat (n + 32) else c.

Fixpoint toLowerCase (s : string) : string :=
  match s with
  | String c rest => String (lower_char c) (toLowerCase rest)
  | EmptyString => EmptyString
  end.

(** The string form of the new value of an attribute, which is what every
    setter reads: the value itself, or ["null"] for a removed attribute. *)
Definition attribute_string (newVal : option string) : string :=
  match newVal with
  | Some s => s
  | None => "null"%string
  end.

(** [this[attrName] = newVal] for the five names of the list. *)
Definition attributeChangedCallback (attrName : string)
    (oldVal newVal : option string) (k : XKnob) : XKnob :=
  let attrName := toLowerCase attrName in
  let x := attribute_string newVal in
  if String.eqb attrName "divisions" then set_divisions x k
  else if String.eqb attrName "min" then set_min (JStr x) k
  else if String.eqb attrName "max" then set_max (JStr x) k
  else if String.eqb attrName "svgusehref" then set_svgusehref x k
  else if String.eqb attrName "value" then set_value (JStr x) k
  else k.

(** *** The sanitisation over any arithmetic

    [_update_value] multiplies, rounds and divides.  What these operations
    give is up to the engine (it rounds every result to a number it can
    hold, and a product can overflow to an infinity), so here they are
    parameters: [x * y], [x / y] and [Math.round(x)].  The comparisons and
    [Number.isFinite] are those of the numbers themselves. *)
Record Arithmetic : Type := mkArithmetic {
  ar_mul : number -> number -> number;
  ar_div : number -> number -> number;
  ar_round : number -> number
}.

(** The arithmetic without rounding and without overflow that the
    definitions above use. *)
Definition exact_arithmetic : Arithmetic :=
  mkArithmetic Num.mul Num.div Math.round.

Definition _update_gfx_rotation_with (A : Arithmetic) (k : XKnob) : XKnob :=
  match knob_gfx k with
  | Some _ => with_knob_gfx k (Some (Some (ar_mul A (_value k) (Fin 360))))
  | None => k
  end.

Definition _update_value_with (A : Arithmetic) (k : XKnob) : XKnob :=
  (* Sanity check. *)
  let k :=
    if negb (Num.isFinite (_value k)) then with_value k (Fin 0) else k in
  (* Snapping to one of the circle divisions. *)
  let k :=
    if Num.isFinite (_divisions k) && (_divisions k >=? Fin 2)
    then with_value k
           (ar_div A (ar_round A (ar_mul A (_value k) (_divisions k)))
                   (_divisions k))
    else k in
  (* Clamping to the defined min..max range. *)
  let k :=
    match _max k with
    | Some max =>
        if Num.isFinite max && (_value k >? max) then with_value k max else k
    | None => k
    end in
  let k :=
    match _min k with
    | Some min =>
        if Num.isFinite min && (_value k <? min) then with_value k min else k
    | None => k
    end in
  _update_gfx_rotation_with A k.

(** [float_or_default] over any [parseFloat]. *)
Definition float_or_default_with {T : Type} (parse : jsval -> number)
    (of_number : number -> T) (x : jsval) (def : T) : T :=
  let x := parse x in
  if Num.isNaN x then def else of_number x.

(** The setter of [value] over any arithmetic and any [parseFloat]. *)
Definition set_value_with (A : Arithmetic) (parse : jsval -> number)
    (x : jsval) (k : XKnob) : XKnob :=
  _update_value_with A
    (with_value k (float_or_default_with parse (fun n => n) x (Fin 0))).

Local Close Scope js_scope.

(** ** The DOM the handlers see *)

(** The identity of an [XKnob] element. *)
Definition ref : Type := nat.

(** An event target: an [HTMLElement], of which the handlers use the
    [ownerDocument], or another target (a document, an SVG element). *)
Inductive EventTarget : Type :=
| HTMLElement (ownerDocument : target_id)
| OtherTarget (self : target_id).

(** A node with its chain of [parentNode]s: a [ShadowRoot], which has a
    [host] (or [null]), a node whose [parentNode] is [null], or a node with
    a parent. *)
Inductive Node : Type :=
| ShadowRoot (host : option ref)
| TopNode
| ChildNode (parentNode : Node).

Record DOMRect : Type := mkDOMRect {
  rect_left : number;
  rect_right : number;
  rect_top : number;
  rect_bottom : number
}.

(** A mouse or touch event.  [clientX] and [clientY] are NaN where the
    event has none (they are only subtracted from); [targetTouches] is empty
    where the event has none.  [knob_center_rect] is what
    [getBoundingClientRect()] returns for the [.knob_center] of the knob when
    the event is handled. *)
Record Event : Type := mkEvent {
  type : string;
  button : Z;
  target : EventTarget;
  currentTarget : Node;
  clientX : number;
  clientY : number;
  targetTouches : list (number * number);
  defaultPrevented : bool;
  propagationStopped : bool;
  knob_center_rect : DOMRect
}.

Definition preventDefault (ev : Event) : Event :=
  mkEvent (type ev) (button ev) (target ev) (currentTarget ev) (clientX ev)
          (clientY ev) (targetTouches ev) true (propagationStopped ev)
          (knob_center_rect ev).

Definition stopPropagation (ev : Event) : Event :=
  mkEvent (type ev) (button ev) (target ev) (currentTarget ev) (clientX ev)
          (clientY ev) (targetTouches ev) (defaultPrevented ev) true
          (knob_center_rect ev).

Inductive handler : Type :=
| h_stop_dragging
| h_drag_rotate.

Definition handler_eqb (a b : handler) : bool :=
  match a, b with
  | h_stop_dragging, h_stop_dragging | h_drag_rotate, h_drag_rotate => true
  | _, _ => false
  end.

(** A registered listener: where, for which event type, which function. *)
Definition listener : Type := (target_id * string * handler)%type.

Definition listener_eqb (a b : listener) : bool :=
  match a, b with
  | (t1, ty1, h1), (t2, ty2, h2) =>
      Nat.eqb t1 t2 && String.eqb ty1 ty2 && handler_eqb h1 h2
  end.

(** Duplicate event listeners are discarded. *)
Definition addEventListener (l : listener) (ls : list listener)
    : list listener :=
  if existsb (listener_eqb l) ls then ls else ls ++ [l].

Definition removeEventListener (l : listener) (ls : list listener)
    : list listener :=
  filter (fun l' => negb (listener_eqb l l')) ls.

(** A failed [console.assert]: the logged object. *)
Record assertion_failure : Type := mkFailure {
  log_delta_angle : number;
  log_old_angle : option number;
  log_new_angle : number
}.

(** ** Global internal variables for UI handling, and the rest of the
    state the handlers act on *)

Record World : Type := mkWorld {
  knobs : ref -> XKnob;
  (** An XKnob element if one is being dragged right now. *)
  xknob_being_dragged : option ref;
  (** The mouse (or touch) angle from the last event. *)
  xknob_drag_previous_angle : option number;
  (** The (proposed, before applying min/max/divisions) value from the last
      event. *)
  xknob_drag_previous_value : option number;
  (** The initial value upon starting to drag the knob. *)
  xknob_drag_initial_value : option number;
  listeners : list listener;
  (** The events dispatched so far: on which element, of which type. *)
  dispatched : list (ref * string);
  (** The assertions that failed so far. *)
  console : list assertion_failure
}.

Definition with_knobs (w : World) (ks : ref -> XKnob) : World :=
  mkWorld ks (xknob_being_dragged w) (xknob_drag_previous_angle w)
          (xknob_drag_previous_value w) (xknob_drag_initial_value w)
          (listeners w) (dispatched w) (console w).

Definition with_being_dragged (w : World) (x : option ref) : World :=
  mkWorld (knobs w) x (xknob_drag_previous_angle w)
          (xknob_drag_previous_value w) (xknob_drag_initial_value w)
          (listeners w) (dispatched w) (console w).

Definition with_previous_angle (w : World) (a : option number) : World :=
  mkWorld (knobs w) (xknob_being_dragged w) a
          (xknob_drag_previous_value w) (xknob_drag_initial_value w)
          (listeners w) (dispatched w) (console w).

Definition with_previous_value (w : World) (v : option number) : World :=
  mkWorld (knobs w) (xknob_being_dragged w) (xknob_drag_previous_angle w)
          v (xknob_drag_initial_value w)
          (listeners w) (dispatched w) (console w).

Definition with_initial_value (w : World) (v : option number) : World :=
  mkWorld (knobs w) (xknob_being_dragged w) (xknob_drag_previous_angle w)
          (xknob_drag_previous_value w) v
          (listeners w) (dispatched w) (console w).

Definition with_listeners (w : World) (ls : list listener) : World :=
  mkWorld (knobs w) (xknob_being_dragged w) (xknob_drag_previous_angle w)
          (xknob_drag_previous_value w) (xknob_drag_initial_value w)
          ls (dispatched w) (console w).

Definition with_dispatched (w : World) (d : list (ref * string)) : World :=
  mkWorld (knobs w) (xknob_being_dragged w) (xknob_drag_previous_angle w)
          (xknob_drag_previous_value w) (xknob_drag_initial_value w)
          (listeners w) d (console w).

Definition with_console (w : World) (c : list assertion_failure) : World :=
  mkWorld (knobs w) (xknob_being_dragged w) (xknob_drag_previous_angle w)
          (xknob_drag_previous_value w) (xknob_drag_initial_value w)
          (listeners w) (dispatched w) c.

(** The element [x] replaced by [k]. *)
Definition update_knob (ks : ref -> XKnob) (x : ref) (k : XKnob)
    : ref -> XKnob :=
  fun y => if Nat.eqb y x then k else ks y.

Definition dispatchEvent (x : ref) (name : string) (w : World) : World :=
  with_dispatched w (dispatched w ++ [(x, name)]).

Definition console_assert (cond : bool) (data : assertion_failure)
    (w : World) : World :=
  if cond then w else with_console w (console w ++ [data]).

(** A number or [null] used as an operand of [+] or [-]: [null] is [0]. *)
Definition to_number (x : option number) : number :=
  match x with
  | Some n => n
  | None => Fin 0
  end.

(** [a !== b] where [a] is a number or [null] and [b] a number. *)
Definition strict_neq_null (a : option number) (b : number) : bool :=
  match a with
  | Some n => Num.strict_neq n b
  | None => true
  end.

Local Open Scope string_scope.
Local Open Scope js_scope.

(** ** Geometry *)

Definition _get_center_position (rect : DOMRect) : number * number :=
  (rect_left rect + (rect_right rect - rect_left rect) / Fin 2,
   rect_top rect + (rect_bottom rect - rect_top rect) / Fin 2).

Definition _get_mouse_angle (ev : Event) : number :=
  let center := _get_center_position (knob_center_rect ev) in
  (* Mouse position. *)
  let cursor := (clientX ev, clientY ev) in
  (* Or finger touch position. *)
  let cursor :=
    match targetTouches ev with
    | touch :: _ => touch
    | [] => cursor
    end in
  let rad := Math.atan2 (snd cursor - snd center) (fst cursor - fst center) in
  rad + Math.PI / Fin 2.

(** ** Event handling functions *)

Definition document_of (elem : EventTarget) : target_id :=
  match elem with
  | HTMLElement doc => doc
  | OtherTarget self => self
  end.

Definition add_listeners_to_document (elem : EventTarget) (w : World)
    : World :=
  let elem := document_of elem in
  let ls := listeners w in
  let ls := addEventListener (elem, "mouseup", h_stop_dragging) ls in
  let ls := addEventListener (elem, "mousemove", h_drag_rotate) ls in
  let ls := addEventListener (elem, "touchend", h_stop_dragging) ls in
  let ls := addEventListener (elem, "touchmove", h_drag_rotate) ls in
  with_listeners w ls.

Definition remove_listeners_from_document (elem : EventTarget) (w : World)
    : World :=
  let elem := document_of elem in
  let ls := listeners w in
  let ls := removeEventListener (elem, "mouseup", h_stop_dragging) ls in
  let ls := removeEventListener (elem, "mousemove", h_drag_rotate) ls in
  let ls := removeEventListener (elem, "touchend", h_stop_dragging) ls in
  let ls := removeEventListener (elem, "touchmove", h_drag_rotate) ls in
  with_listeners w ls.

(** The loop of [start_dragging] that climbs to the shadow root: [None] when
    the chain of parents ends without one, else the [host] it has. *)
Fixpoint find_shadow_root (n : Node) : option (option ref) :=
  match n with
  | ShadowRoot host => Some host
  | TopNode => None
  | ChildNode parent => find_shadow_root parent
  end.

(** Should be attached to [.knob_gfx]. *)
Definition start_dragging (ev : Event) (w : World) : Event * World :=
  let w := remove_listeners_from_document (target ev) w in
  let w := with_being_dragged w None in
  (* Only handling clicks with the left mouse button. *)
  if String.eqb (type ev) "mousedown" && negb (Z.eqb (button ev) 0)
  then (ev, w)
  else
    (* Finding the XKnob element. *)
    match find_shadow_root (currentTarget ev) with
    | None => (ev, w)
    | Some None => (ev, w)
    | Some (Some xknob) =>
        (* Actual event handling. *)
        let ev := preventDefault ev in
        let ev := stopPropagation ev in
        let w := with_being_dragged w (Some xknob) in
        let w := with_previous_angle w (Some (_get_mouse_angle ev)) in
        let w := with_previous_value w (Some (get_value (knobs w xknob))) in
        let w := with_initial_value w (Some (get_value (knobs w xknob))) in
        (ev, add_listeners_to_document
               (HTMLElement (ownerDocument (knobs w xknob))) w)
    end.

(** Should be attached to the document. *)
Definition stop_dragging (ev : Event) (w : World) : World :=
  match xknob_being_dragged w with
  | None => remove_listeners_from_document (target ev) w
  | Some xknob =>
      let w :=
        if strict_neq_null (xknob_drag_initial_value w)
                           (get_value (knobs w xknob))
        then dispatchEvent xknob "change" w
        else w in
      let w := remove_listeners_from_document (target ev) w in
      with_being_dragged w None
  end.

(** The angle turned between two events, lines 128 to 136 of the source. *)
Definition delta_angle_of (new_angle : number) (old_angle : option number)
    : number :=
  let delta_angle := new_angle - to_number old_angle in
  let delta_angle :=
    if delta_angle <? Fin 0
    then (* Because this is a circle *) delta_angle + Math.PI * Fin 2
    else delta_angle in
  let delta_angle :=
    if delta_angle >? Math.PI
    then (* Converting from 0..360 to -180..180. *)
      delta_angle - Math.PI * Fin 2
    else delta_angle in
  delta_angle.

(** The condition of the [console.assert] of [drag_rotate]. *)
Definition delta_angle_asserted (delta_angle : number) : bool :=
  (delta_angle >=? Num.neg Math.PI) && (delta_angle <=? Math.PI).

(** Should be attached to the document. *)
Definition drag_rotate (ev : Event) (w : World) : World :=
  match xknob_being_dragged w with
  | None => remove_listeners_from_document (target ev) w
  | Some xknob =>
      let new_angle := _get_mouse_angle ev in
      let old_angle := xknob_drag_previous_angle w in
      let w := with_previous_angle w (Some new_angle) in
      let delta_angle := delta_angle_of new_angle old_angle in
      let w :=
        console_assert (delta_angle_asserted delta_angle)
                       (mkFailure delta_angle old_angle new_angle) w in
      let delta_value := delta_angle / Math.PI / Fin 2 in
      let new_proposed_value :=
        to_number (xknob_drag_previous_value w) + delta_value in
      let w := with_previous_value w (Some new_proposed_value) in
      let old_actual_value := get_value (knobs w xknob) in
      let w :=
        with_knobs w
          (update_knob (knobs w) xknob
             (set_value (JNum new_proposed_value) (knobs w xknob))) in
      let new_actual_value := get_value (knobs w xknob) in
      if old_actual_value !== new_actual_value
      then dispatchEvent xknob "input" w
      else w
  end.

Local Close Scope js_scope.
Local Close Scope string_scope.

(** * Definitions used by the statements *)

(** The integer nearest to [r], a tie going up. *)
Definition round_half_up (r : R) : Z := Int_part (r + / 2).

(** The four steps of the sanitisation in exact arithmetic, on a raw value
    with the configuration [{divisions, min, max}]; there the value is
    finite from the first step on. *)
Definition ValueTransform_apply (raw : number) (min max : option number)
    (divisions : number) : R :=
  (* 1. If raw is not finite, replace with 0. *)
  let raw := match raw with Fin r => r | _ => 0 end in
  (* 2. If divisions is finite and >= 2: round(raw * divisions) / divisions. *)
  let raw :=
    match divisions with
    | Fin d => if Rleb 2 d then IZR (round_half_up (raw * d)) / d else raw
    | _ => raw
    end in
  (* 3. If max is finite and raw > max: raw := max. *)
  let raw :=
    match max with
    | Some (Fin m) => if Rltb m raw then m else raw
    | _ => raw
    end in
  (* 4. If min is finite and raw < min: raw := min. *)
  let raw :=
    match min with
    | Some (Fin m) => if Rltb raw m then m else raw
    | _ => raw
    end in
  raw.

(** Value sanitisation as the specification words it, over any arithmetic:
    the four steps, in their order, on a raw value with the configuration
    [{divisions, min, max}]. *)
Definition ValueTransform_steps (A : Arithmetic) (raw : number)
    (min max : option number) (divisions : number) : number :=
  (* 1. If raw is not finite, replace with 0. *)
  let raw := if Num.isFinite raw then raw else Fin 0 in
  (* 2. If divisions is finite and >= 2: round(raw * divisions) / divisions. *)
  let raw :=
    if Num.isFinite divisions && Num.ge divisions (Fin 2)
    then ar_div A (ar_round A (ar_mul A raw divisions)) divisions
    else raw in
  (* 3. If max is finite and raw > max: raw := max. *)
  let raw :=
    match max with
    | Some m => if Num.isFinite m && Num.gt raw m then m else raw
    | None => raw
    end in
  (* 4. If min is finite and raw < min: raw := min. *)
  let raw :=
    match min with
    | Some m => if Num.isFinite m && Num.lt raw m then m else raw
    | None => raw
    end in
  raw.

(** What a statement that only assigns [_value] leaves alone. *)
Definition same_configuration (k k' : XKnob) : Prop :=
  _divisions k' = _divisions k /\ _min k' = _min k /\ _max k' = _max k
  /\ _svgusehref k' = _svgusehref k /\ ownerDocument k' = ownerDocument k.

(** The [divisions] of an element are an integer or an infinity. *)
Definition whole_divisions (k : XKnob) : Prop :=
  (exists z : Z, _divisions k = Fin (IZR z))
  \/ _divisions k = PInf \/ _divisions k = NInf.

(** An element with the default values of its private variables. *)
Definition default_knob : XKnob :=
  mkXKnob (Fin 0) None None None (Fin 0) None 0%nat.

(** Four divisions, a maximum of 0.6 that is no multiple of a quarter, and
    a value of 0.7 not yet sanitised. *)
Definition knob_off_grid : XKnob :=
  mkXKnob (Fin 4) None (Some (Fin (6 / 10))) None (Fin (7 / 10)) None 0%nat.

(** A minimum of 2 above a maximum of 1. *)
Definition knob_min_above_max : XKnob :=
  mkXKnob (Fin 0) (Some (Fin 2)) (Some (Fin 1)) None (Fin 0) None 0%nat.

(** The position of the pointer: the first touch if there is one, else the
    mouse. *)
Definition pointer_position (ev : Event) : number * number :=
  match targetTouches ev with
  | touch :: _ => touch
  | [] => (clientX ev, clientY ev)
  end.

(** The pointer and the rectangle of the centre have finite coordinates. *)
Definition finite_pointer (ev : Event) : bool :=
  Num.isFinite (rect_left (knob_center_rect ev))
  && Num.isFinite (rect_right (knob_center_rect ev))
  && Num.isFinite (rect_top (knob_center_rect ev))
  && Num.isFinite (rect_bottom (knob_center_rect ev))
  && Num.isFinite (fst (pointer_position ev))
  && Num.isFinite (snd (pointer_position ev)).

(** The angle turned from [old_angle] to [new_angle] as the specification
    words it: the difference, plus [2 PI] if it is negative, minus [2 PI]
    if the result is above [PI]. *)
Definition shortest_delta (new_angle old_angle : R) : R :=
  let d := new_angle - old_angle in
  let d := if Rltb d 0 then d + 2 * PI else d in
  let d := if Rltb PI d then d - 2 * PI else d in
  d.

(** The value that a pointer-move proposes for the dragged element. *)
Definition proposed_value (ev : Event) (w : World) : number :=
  Num.add (to_number (xknob_drag_previous_value w))
    (Num.div
       (Num.div
          (delta_angle_of (_get_mouse_angle ev)
                          (xknob_drag_previous_angle w))
          Math.PI)
       (Fin 2)).

(** The statements of [_update_value], one by one. *)

Local Open Scope js_scope.

Definition sanity_check (k : XKnob) : XKnob :=
  if negb (Num.isFinite (_value k)) then with_value k (Fin 0) else k.

Definition snap (k : XKnob) : XKnob :=
  if Num.isFinite (_divisions k) && (_divisions k >=? Fin 2)
  then with_value k (Math.round (_value k * _divisions k) / _divisions k)
  else k.

Definition clamp_max (k : XKnob) : XKnob :=
  match _max k with
  | Some max =>
      if Num.isFinite max && (_value k >? max) then with_value k max else k
  | None => k
  end.

Definition clamp_min (k : XKnob) : XKnob :=
  match _min k with
  | Some min =>
      if Num.isFinite min && (_value k <? min) then with_value k min else k
  | None => k
  end.

Local Close Scope js_scope.

Local Open Scope string_scope.
Local Open Scope list_scope.

(** Whether [l] is one of the four listeners that the handlers register on
    [doc]. *)
Definition drag_listener_of (doc : target_id) (l : listener) : bool :=
  listener_eqb (doc, "mouseup", h_stop_dragging) l
  || listener_eqb (doc, "mousemove", h_drag_rotate) l
  || listener_eqb (doc, "touchend", h_stop_dragging) l
  || listener_eqb (doc, "touchmove", h_drag_rotate) l.

(** The world after a sequence of pointer-moves. *)
Definition drag_moves (moves : list Event) (w : World) : World :=
  fold_left (fun w ev => drag_rotate ev w) moves w.

(** The [change] events among the dispatched ones. *)
Definition change_events (l : list (ref * string)) : list (ref * string) :=
  filter (fun d => String.eqb (snd d) "change") l.

(** The [.knob_gfx] element of element 0: a child of the [svg] element,
    which is a child of the shadow root. *)
Definition knob_gfx_node : Node :=
  ChildNode (ChildNode (ShadowRoot (Some 0%nat))).

(** The centre of the knob is at (50, 50). *)
Definition centre_rect : DOMRect :=
  mkDOMRect (Fin 50) (Fin 50) (Fin 50) (Fin 50).

(** A mouse event at [(x, y)], on an element of document 0. *)
Definition mouse_event (name : string) (btn : Z) (x y : R) : Event :=
  mkEvent name btn (HTMLElement 0%nat) knob_gfx_node (Fin x) (Fin y) []
          false false centre_rect.

(** Nothing dragged, nothing registered, nothing dispatched yet. *)
Definition idle_world : World :=
  mkWorld (fun _ => default_knob) None None None None [] [] [].

(** A press of the left button straight above the centre, a move to the
    right of the centre (a quarter of a turn), a release. *)
Definition press : Event := mouse_event "mousedown" 0 50 0.

Definition quarter_turn : Event := mouse_event "mousemove" 0 100 50.

Definition release : Event := mouse_event "mouseup" 0 100 50.

(** A press of the right button. *)
Definition right_press : Event := mouse_event "mousedown" 2 50 0.

(** The world after the press: element 0 is being dragged. *)
Definition dragging_world : World := snd (start_dragging press idle_world).

Local Close Scope string_scope.

(** ** Definitions for the further properties *)

(** Whether [_update_value] snaps the value of [k] to a division. *)
Definition quantizes (k : XKnob) : bool :=
  Num.isFinite (_divisions k) && Num.ge (_divisions k) (Fin 2).



(** Neither bound is NaN. *)
Definition bounds_not_NaN (k : XKnob) : Prop :=
  _min k <> Some NaN /\ _max k <> Some NaN.

(** [n] levels of elements below [top]. *)
Fixpoint descendant (n : nat) (top : Node) : Node :=
  match n with
  | O => top
  | S n' => ChildNode (descendant n' top)
  end.

(** The four listeners of a drag are registered on [doc]. *)
Definition drag_listeners_registered (doc : target_id)
    (ls : list listener) : Prop :=
  In (doc, "mouseup"%string, h_stop_dragging) ls
  /\ In (doc, "mousemove"%string, h_drag_rotate) ls
  /\ In (doc, "touchend"%string, h_stop_dragging) ls
  /\ In (doc, "touchmove"%string, h_drag_rotate) ls.

(** A move to straight below the centre: half a turn from [press]. *)
Definition half_turn : Event :=
  mouse_event "mousemove"%string 0 50 100.

(** A move that carries no position: neither mouse coordinates nor a
    touch. *)
Definition move_without_position : Event :=
  mkEvent "touchmove"%string 0 (HTMLElement 0%nat) knob_gfx_node NaN NaN []
          false false centre_rect.

(** A knob with a maximum of 0 and the value 0, and the world where it is
    being dragged after [press]. *)
Definition knob_at_max : XKnob :=
  mkXKnob (Fin 0) None (Some (Fin 0)) None (Fin 0) None 0%nat.

Definition dragging_at_max : World :=
  snd (start_dragging press
         (mkWorld (fun _ => knob_at_max) None None None None [] [] [])).

(** * Properties *)

(** ** Comparisons of reals as booleans *)

Lemma Rltb_true (a b : R) : Rltb a b = true <-> a < b.
Proof. unfold Rltb; destruct (Rlt_dec a b); split; intros; try lra; congruence. Qed.

Lemma Rltb_false (a b : R) : Rltb a b = false <-> b <= a.
Proof. unfold Rltb; destruct (Rlt_dec a b); split; intros; try lra; congruence. Qed.

Lemma Rleb_true (a b : R) : Rleb a b = true <-> a <= b.
Proof. unfold Rleb; destruct (Rle_dec a b); split; intros; try lra; congruence. Qed.

Lemma Rleb_false (a b : R) : Rleb a b = false <-> b < a.
Proof. unfold Rleb; destruct (Rle_dec a b); split; intros; try lra; congruence. Qed.

Lemma Req_b_true (a b : R) : Req_b a b = true <-> a = b.
Proof. unfold Req_b; destruct (Req_dec_T a b); split; intros; try lra; congruence. Qed.

Lemma Req_b_false (a b : R) : Req_b a b = false <-> a <> b.
Proof. unfold Req_b; destruct (Req_dec_T a b); split; intros; try lra; congruence. Qed.

Ltac no_test t :=
  lazymatch t with
  | context [Rltb _ _] => fail
  | context [Rleb _ _] => fail
  | context [Req_b _ _] => fail
  | _ => idtac
  end.

(** Decides every comparison of reals in the goal, innermost first, and
    keeps the fact. *)
Ltac rcases :=
  repeat match goal with
  | |- context [Rltb ?a ?b] =>
      no_test a; no_test b;
      let H := fresh "C" in
      destruct (Rltb a b) eqn:H;
      [apply Rltb_true in H | apply Rltb_false in H]
  | |- context [Rleb ?a ?b] =>
      no_test a; no_test b;
      let H := fresh "C" in
      destruct (Rleb a b) eqn:H;
      [apply Rleb_true in H | apply Rleb_false in H]
  | |- context [Req_b ?a ?b] =>
      no_test a; no_test b;
      let H := fresh "C" in
      destruct (Req_b a b) eqn:H;
      [apply Req_b_true in H | apply Req_b_false in H]
  end.

(** ** [Math.round] *)

Lemma round_half_up_spec (r : R) (z : Z) :
  IZR z - / 2 <= r < IZR z + / 2 -> round_half_up r = z.
Proof.
  intros H. unfold round_half_up. symmetry. apply Int_part_spec. lra.
Qed.


(** ** [_update_value], statement by statement *)

Lemma _update_value_steps (k : XKnob) :
  _update_value k
  = _update_gfx_rotation (clamp_min (clamp_max (snap (sanity_check k)))).
Proof. reflexivity. Qed.

Lemma same_configuration_refl (k : XKnob) : same_configuration k k.
Proof. repeat split. Qed.

Lemma same_configuration_trans (k1 k2 k3 : XKnob) :
  same_configuration k1 k2 -> same_configuration k2 k3 ->
  same_configuration k1 k3.
Proof.
  unfold same_configuration. intros (?&?&?&?&?) (?&?&?&?&?).
  repeat split; congruence.
Qed.

Lemma with_value_configuration (k : XKnob) (v : number) :
  same_configuration k (with_value k v).
Proof. repeat split. Qed.

Lemma _update_gfx_rotation_configuration (k : XKnob) :
  same_configuration k (_update_gfx_rotation k).
Proof. unfold _update_gfx_rotation. destruct (knob_gfx k); repeat split. Qed.

Lemma _update_gfx_rotation_value (k : XKnob) :
  _value (_update_gfx_rotation k) = _value k.
Proof. unfold _update_gfx_rotation. destruct (knob_gfx k); reflexivity. Qed.

Create HintDb knob.

#[local] Hint Resolve same_configuration_refl with_value_configuration
  _update_gfx_rotation_configuration : knob.

Lemma sanity_check_configuration (k : XKnob) :
  same_configuration k (sanity_check k).
Proof. unfold sanity_check. destruct (negb _); auto with knob. Qed.

Lemma snap_configuration (k : XKnob) : same_configuration k (snap k).
Proof. unfold snap. destruct (_ && _); auto with knob. Qed.

Lemma clamp_max_configuration (k : XKnob) :
  same_configuration k (clamp_max k).
Proof.
  unfold clamp_max. destruct (_max k); [destruct (_ && _)|]; auto with knob.
Qed.

Lemma clamp_min_configuration (k : XKnob) :
  same_configuration k (clamp_min k).
Proof.
  unfold clamp_min. destruct (_min k); [destruct (_ && _)|]; auto with knob.
Qed.

Lemma _update_value_configuration (k : XKnob) :
  same_configuration k (_update_value k).
Proof.
  rewrite _update_value_steps.
  eapply same_configuration_trans; [apply sanity_check_configuration|].
  eapply same_configuration_trans; [apply snap_configuration|].
  eapply same_configuration_trans; [apply clamp_max_configuration|].
  eapply same_configuration_trans; [apply clamp_min_configuration|].
  apply _update_gfx_rotation_configuration.
Qed.

(** The value after each statement. *)

Lemma sanity_check_value (k : XKnob) :
  _value (sanity_check k)
  = Fin (match _value k with Fin r => r | _ => 0 end).
Proof. unfold sanity_check. destruct (_value k) eqn:E; cbn; auto. Qed.

Lemma snap_value (k : XKnob) (r : R) :
  _value k = Fin r ->
  _value (snap k)
  = Fin (match _divisions k with
         | Fin d => if Rleb 2 d then IZR (round_half_up (r * d)) / d else r
         | _ => r
         end).
Proof.
  intros E. unfold snap, Num.ge.
  destruct (_divisions k) as [| | |d]; cbn; auto.
  destruct (Rleb 2 d) eqn:C; cbn; auto.
  apply Rleb_true in C. rewrite E. cbn.
  rcases; try lra; reflexivity.
Qed.

Lemma clamp_max_value (k : XKnob) (r : R) :
  _value k = Fin r ->
  _value (clamp_max k)
  = Fin (match _max k with
         | Some (Fin m) => if Rltb m r then m else r
         | _ => r
         end).
Proof.
  intros E. unfold clamp_max, Num.gt.
  destruct (_max k) as [[| | |m]|]; cbn; auto.
  rewrite E. cbn. destruct (Rltb m r); cbn; auto.
Qed.

Lemma clamp_min_value (k : XKnob) (r : R) :
  _value k = Fin r ->
  _value (clamp_min k)
  = Fin (match _min k with
         | Some (Fin m) => if Rltb r m then m else r
         | _ => r
         end).
Proof.
  intros E. unfold clamp_min.
  destruct (_min k) as [[| | |m]|]; cbn; auto.
  rewrite E. cbn. destruct (Rltb r m); cbn; auto.
Qed.

Lemma _update_value_value (k : XKnob) :
  _value (_update_value k)
  = Fin (ValueTransform_apply (_value k) (_min k) (_max k) (_divisions k)).
Proof.
  rewrite _update_value_steps, _update_gfx_rotation_value.
  destruct (sanity_check_configuration k) as (D1 & N1 & X1 & _).
  destruct (snap_configuration (sanity_check k)) as (D2 & N2 & X2 & _).
  destruct (clamp_max_configuration (snap (sanity_check k)))
    as (D3 & N3 & X3 & _).
  erewrite clamp_min_value;
    [|erewrite clamp_max_value;
      [|erewrite snap_value; [|apply sanity_check_value]; reflexivity];
      reflexivity].
  unfold ValueTransform_apply.
  rewrite N3, N2, N1, X2, X1, D1. reflexivity.
Qed.

Lemma ValueTransform_apply_NaN_default (x : number) (mn mx : option number)
    (d : number) :
  ValueTransform_apply (if Num.isNaN x then Fin 0 else x) mn mx d
  = ValueTransform_apply x mn mx d.
Proof. destruct x; reflexivity. Qed.

Lemma set_value_value (x : jsval) (k : XKnob) :
  get_value (set_value x k)
  = Fin (ValueTransform_apply (parseFloat x) (_min k) (_max k) (_divisions k)).
Proof.
  unfold get_value, set_value, float_or_default.
  rewrite _update_value_value. cbn [_value _min _max _divisions with_value].
  rewrite ValueTransform_apply_NaN_default. reflexivity.
Qed.

Lemma set_value_configuration (x : jsval) (k : XKnob) :
  same_configuration k (set_value x k).
Proof.
  unfold set_value.
  eapply same_configuration_trans; [|apply _update_value_configuration].
  apply with_value_configuration.
Qed.

(** ** C1: the steps of the sanitisation and their order *)

Lemma _update_gfx_rotation_with_configuration (A : Arithmetic) (k : XKnob) :
  same_configuration k (_update_gfx_rotation_with A k).
Proof.
  unfold _update_gfx_rotation_with. destruct (knob_gfx k); repeat split.
Qed.

Lemma _update_gfx_rotation_with_value (A : Arithmetic) (k : XKnob) :
  _value (_update_gfx_rotation_with A k) = _value k.
Proof.
  unfold _update_gfx_rotation_with. destruct (knob_gfx k); reflexivity.
Qed.

(** The snap over any arithmetic. *)
Lemma _update_value_with_steps (A : Arithmetic) (k : XKnob) :
  _update_value_with A k
  = _update_gfx_rotation_with A
      (clamp_min
         (clamp_max
            (let k1 := sanity_check k in
             if Num.isFinite (_divisions k1) && Num.ge (_divisions k1) (Fin 2)
             then with_value k1
                    (ar_div A
                       (ar_round A (ar_mul A (_value k1) (_divisions k1)))
                       (_divisions k1))
             else k1))).
Proof. reflexivity. Qed.

Lemma _update_value_with_configuration (A : Arithmetic) (k : XKnob) :
  same_configuration k (_update_value_with A k).
Proof.
  rewrite _update_value_with_steps. cbv zeta.
  eapply same_configuration_trans; [apply sanity_check_configuration|].
  eapply same_configuration_trans;
    [|eapply same_configuration_trans;
      [apply clamp_max_configuration
      |eapply same_configuration_trans;
       [apply clamp_min_configuration
       |apply _update_gfx_rotation_with_configuration]]].
  destruct (_ && _); auto with knob.
Qed.

Lemma _update_value_with_value (A : Arithmetic) (k : XKnob) :
  _value (_update_value_with A k)
  = ValueTransform_steps A (_value k) (_min k) (_max k) (_divisions k).
Proof.
  rewrite _update_value_with_steps, _update_gfx_rotation_with_value.
  destruct k as [d mn mx s v g doc].
  unfold ValueTransform_steps, clamp_min, clamp_max, sanity_check.
  cbn [_value _min _max _divisions with_value].
  destruct (Num.isFinite v); cbn [negb _value _min _max _divisions with_value];
    destruct (Num.isFinite d && Num.ge d (Fin 2));
    cbn [_value _min _max _divisions with_value];
    (destruct mx as [m|];
     [destruct (Num.isFinite m && Num.gt _ m)|]);
    cbn [_value _min _max _divisions with_value];
    (destruct mn as [m'|];
     [destruct (Num.isFinite m' && Num.lt _ m')|]);
    reflexivity.
Qed.

Lemma ValueTransform_steps_NaN_default (A : Arithmetic) (x : number)
    (mn mx : option number) (d : number) :
  ValueTransform_steps A (if Num.isNaN x then Fin 0 else x) mn mx d
  = ValueTransform_steps A x mn mx d.
Proof. destruct x; reflexivity. Qed.

(** C1.  Whatever the multiplication, the division and the rounding of
    numbers give (those of binary64 with their rounding and overflow, or
    exact ones), and whatever [parseFloat] reads: for every element,
    whatever its [_value], [_divisions], [_min] and [_max] hold,
    [_update_value] stores the result of the four steps of the
    specification in their order (not finite: 0; divisions finite and at
    least 2: round(value * divisions) / divisions; above a finite max: max;
    below a finite min: min), and so does every assignment to the [value]
    property, of a number (NaN and the infinities included) or of a string;
    a value that is not finite (NaN or an infinity) is sanitised as 0 is;
    a result is returned in every case and the configuration is left as it
    was.  With the exact arithmetic these are the functions that the rest
    of this file is about. *)
Theorem update_value_applies_the_four_steps (A : Arithmetic)
    (parse : jsval -> number) (k : XKnob) (x : jsval) :
  get_value (_update_value_with A k)
  = ValueTransform_steps A (_value k) (_min k) (_max k) (_divisions k)
  /\ get_value (set_value_with A parse x k)
     = ValueTransform_steps A (parse x) (_min k) (_max k) (_divisions k)
  /\ same_configuration k (_update_value_with A k)
  /\ same_configuration k (set_value_with A parse x k)
  /\ ValueTransform_steps A NaN (_min k) (_max k) (_divisions k)
     = ValueTransform_steps A (Fin 0) (_min k) (_max k) (_divisions k)
  /\ ValueTransform_steps A PInf (_min k) (_max k) (_divisions k)
     = ValueTransform_steps A (Fin 0) (_min k) (_max k) (_divisions k)
  /\ ValueTransform_steps A NInf (_min k) (_max k) (_divisions k)
     = ValueTransform_steps A (Fin 0) (_min k) (_max k) (_divisions k)
  /\ _update_value_with exact_arithmetic k = _update_value k
  /\ set_value_with exact_arithmetic parseFloat x k = set_value x k.
Proof.
  split; [apply _update_value_with_value|].
  split.
  - unfold get_value, set_value_with, float_or_default_with.
    rewrite _update_value_with_value.
    cbn [_value _min _max _divisions with_value].
    apply ValueTransform_steps_NaN_default.
  - split; [apply _update_value_with_configuration|].
    split; [|repeat split; reflexivity].
    unfold set_value_with.
    eapply same_configuration_trans;
      [|apply _update_value_with_configuration].
    apply with_value_configuration.
Qed.

(** The examples P1 to P3 of the specification. *)

Example set_value_NaN :
  get_value (set_value (JNum NaN) default_knob) = Fin 0.
Proof.
  rewrite set_value_value. unfold ValueTransform_apply; cbn.
  rcases; try lra. reflexivity.
Qed.

Example set_value_four_divisions :
  let k := with_divisions default_knob (Fin 4) in
  get_value (set_value (JNum (Fin (1 / 10))) k) = Fin 0
  /\ get_value (set_value (JNum (Fin (4 / 10))) k) = Fin (1 / 2).
Proof.
  cbn zeta. rewrite !set_value_value.
  unfold ValueTransform_apply; cbn.
  rewrite (round_half_up_spec (1 / 10 * 4) 0) by lra.
  rewrite (round_half_up_spec (4 / 10 * 4) 2) by lra.
  rcases; try lra. split; f_equal; lra.
Qed.

Example set_value_clamped :
  let k := with_max (with_min default_knob (Some (Fin 0))) (Some (Fin 1)) in
  get_value (set_value (JNum (Fin (- (2 / 10)))) k) = Fin 0
  /\ get_value (set_value (JNum (Fin (15 / 10))) k) = Fin 1.
Proof.
  cbn zeta. rewrite !set_value_value.
  unfold ValueTransform_apply; cbn.
  rcases; try lra. split; reflexivity.
Qed.

(** ** C5: sanitising twice *)

Lemma knob_off_grid_once :
  _value (_update_value knob_off_grid) = Fin (6 / 10).
Proof.
  rewrite _update_value_value. unfold ValueTransform_apply; cbn.
  rewrite (round_half_up_spec (7 / 10 * 4) 3) by lra.
  rcases; try lra. reflexivity.
Qed.

Lemma knob_off_grid_twice :
  _value (_update_value (_update_value knob_off_grid)) = Fin (1 / 2).
Proof.
  rewrite _update_value_value.
  destruct (_update_value_configuration knob_off_grid) as (D & N & X & _).
  rewrite D, N, X, knob_off_grid_once.
  unfold ValueTransform_apply; cbn.
  rewrite (round_half_up_spec (6 / 10 * 4) 2) by lra.
  rcases; try lra. f_equal. lra.
Qed.

(** C5.  The sanitisation is not idempotent at a clamp boundary: there is
    an element with [divisions >= 2] and a finite [max] that is no multiple
    of [1 / divisions], whose value one run of [_update_value] puts on
    [max] and a second run moves off it. *)
Theorem update_value_not_idempotent_at_boundary :
  exists (k : XKnob) (d m : R),
    _divisions k = Fin d /\ 2 <= d /\ _max k = Some (Fin m)
    /\ (forall z : Z, m <> IZR z / d)
    /\ _value (_update_value k) = Fin m
    /\ _value (_update_value (_update_value k)) <> Fin m.
Proof.
  exists knob_off_grid, 4, (6 / 10).
  split; [reflexivity|]. split; [lra|]. split; [reflexivity|].
  split.
  - intros z H.
    assert (E : IZR (5 * z) = IZR 12) by (rewrite mult_IZR; lra).
    apply eq_IZR in E. lia.
  - split; [apply knob_off_grid_once|].
    rewrite knob_off_grid_twice. intros H. injection H. lra.
Qed.

(** ** C10: a minimum above the maximum *)

Lemma ValueTransform_apply_min_above_max (raw d : number) (mn mx : R) :
  mx < mn ->
  ValueTransform_apply raw (Some (Fin mn)) (Some (Fin mx)) d = mn.
Proof.
  intros H. unfold ValueTransform_apply.
  match goal with
  | |- context [Rltb mx ?q] => generalize q
  end.
  intros q. rcases; lra.
Qed.

(** C10.  When [min] and [max] are both finite and [min > max], the
    sanitisation returns [min] for every input, so that the value stored by
    any assignment is [min]. *)
Theorem min_wins_when_above_max (k : XKnob) (mn mx : R) (x : jsval) :
  _min k = Some (Fin mn) -> _max k = Some (Fin mx) -> mx < mn ->
  get_value (_update_value k) = Fin mn
  /\ get_value (set_value x k) = Fin mn.
Proof.
  intros N X H. unfold get_value at 1.
  rewrite _update_value_value, set_value_value, N, X.
  rewrite !ValueTransform_apply_min_above_max by assumption.
  split; reflexivity.
Qed.

Lemma min_wins_when_above_max_witness :
  get_value (_update_value knob_min_above_max) = Fin 2
  /\ get_value (set_value (JNum (Fin 5)) knob_min_above_max) = Fin 2.
Proof.
  apply (min_wins_when_above_max knob_min_above_max 2 1 (JNum (Fin 5)));
    [reflexivity | reflexivity | lra].
Defined.

(** ** C6: what the [divisions] field can hold *)

Local Open Scope string_scope.

Lemma integer_number_cases (z : Z) :
  integer_number z = Fin (IZR z)
  \/ integer_number z = PInf \/ integer_number z = NInf.
Proof.
  unfold integer_number.
  destruct (overflow_threshold <=? Z.abs z)%Z; [|auto].
  destruct (z <? 0)%Z; cbn; auto.
Qed.

Lemma parseInt10_cases (s : string) :
  parseInt10 s = NaN
  \/ (exists z : Z, parseInt10 s = Fin (IZR z))
  \/ parseInt10 s = PInf \/ parseInt10 s = NInf.
Proof.
  unfold parseInt10.
  destruct (read_sign (trim_start s)) as [negative s1].
  destruct (read_digits s1) as [[|d ds] tl]; [auto|].
  right.
  destruct (integer_number_cases (signed negative (digits_value (d :: ds))))
    as [E | [E | E]]; rewrite E; eauto.
Qed.

(** *** Invariants of an element

    A property that the default fields have and that every assignment and
    [_update_innerHTML] keep holds of every element, however it was created
    and whatever was assigned to it since. *)

Section Invariant.

Variable P : XKnob -> Prop.

Hypothesis P_default :
  forall doc : target_id, P (mkXKnob (Fin 0) None None None (Fin 0) None doc).
Hypothesis P_assign : forall k a, P k -> P (assign k a).
Hypothesis P_innerHTML : forall k, P k -> P (_update_innerHTML k).

Lemma assign_all_invariant (l : list assignment) (k : XKnob) :
  P k -> P (assign_all k l).
Proof.
  revert k. induction l as [|a l IH]; intros k H; [exact H|].
  apply IH, P_assign, H.
Qed.

Lemma set_if_present_invariant {A : Type} (attr : option A)
    (setter : A -> XKnob -> XKnob) (k : XKnob) :
  (forall a k', P k' -> P (setter a k')) ->
  P k -> P (set_if_present attr setter k).
Proof. intros S H. destruct attr; cbn; auto. Qed.

(** The constructor sets the attributes it finds as so many
    assignments. *)
Lemma createdCallback_invariant (attrs : Attributes) (doc : target_id) :
  P (createdCallback attrs doc).
Proof.
  unfold createdCallback. cbv zeta.
  match goal with
  | |- P (match _svgusehref ?k with _ => _ end) =>
      assert (H : P k); [|destruct (_svgusehref k); auto]
  end.
  apply set_if_present_invariant;
    [intros a k'; apply (P_assign k' (AssignValue (JStr a)))|].
  apply set_if_present_invariant;
    [intros a k'; apply (P_assign k' (AssignSvgusehref a))|].
  apply set_if_present_invariant;
    [intros a k'; apply (P_assign k' (AssignMax (JStr a)))|].
  apply set_if_present_invariant;
    [intros a k'; apply (P_assign k' (AssignMin (JStr a)))|].
  apply set_if_present_invariant;
    [intros a k'; apply (P_assign k' (AssignDivisions a))|].
  apply P_default.
Qed.

Lemma element_invariant (attrs : Attributes) (doc : target_id)
    (l : list assignment) :
  P (assign_all (createdCallback attrs doc) l).
Proof. apply assign_all_invariant, createdCallback_invariant. Qed.

End Invariant.

Lemma _update_innerHTML_configuration (k : XKnob) :
  same_configuration k (_update_innerHTML k).
Proof.
  unfold _update_innerHTML.
  eapply same_configuration_trans;
    [|apply _update_gfx_rotation_configuration].
  repeat split.
Qed.


Lemma int_or_default_whole (x : string) :
  (exists z : Z, int_or_default x (Fin 0) = Fin (IZR z))
  \/ int_or_default x (Fin 0) = PInf \/ int_or_default x (Fin 0) = NInf.
Proof.
  unfold int_or_default.
  destruct (parseInt10_cases x) as [E | [[z E] | [E | E]]]; rewrite E; cbn;
    eauto.
Qed.

Lemma set_divisions_divisions (x : string) (k : XKnob) :
  _divisions (set_divisions x k) = int_or_default x (Fin 0).
Proof.
  unfold set_divisions.
  rewrite (proj1 (_update_value_configuration _)). reflexivity.
Qed.

Lemma assign_whole_divisions (k : XKnob) (a : assignment) :
  whole_divisions k -> whole_divisions (assign k a).
Proof.
  unfold whole_divisions. intros H.
  destruct a as [x | x | x | x | x]; cbn [assign].
  - rewrite set_divisions_divisions. apply int_or_default_whole.
  - unfold set_min.
    rewrite (proj1 (_update_value_configuration _)). exact H.
  - unfold set_max.
    rewrite (proj1 (_update_value_configuration _)). exact H.
  - unfold set_svgusehref.
    rewrite (proj1 (_update_innerHTML_configuration _)). exact H.
  - rewrite (proj1 (set_value_configuration _ _)). exact H.
Qed.

Lemma element_whole_divisions (attrs : Attributes) (doc : target_id)
    (l : list assignment) :
  whole_divisions (assign_all (createdCallback attrs doc) l).
Proof.
  apply (element_invariant whole_divisions).
  - intros d. left. exists 0%Z. reflexivity.
  - apply assign_whole_divisions.
  - intros k H. unfold whole_divisions.
    rewrite (proj1 (_update_innerHTML_configuration _)). exact H.
Qed.

Lemma ValueTransform_apply_not_snapped (raw : number)
    (mn mx : option number) (d : number) :
  (forall d' : R, d = Fin d' -> d' < 2) ->
  ValueTransform_apply raw mn mx d = ValueTransform_apply raw mn mx (Fin 0).
Proof.
  intros H. unfold ValueTransform_apply. cbv zeta.
  assert (Z : Rleb 2 0 = false) by (apply Rleb_false; lra).
  rewrite Z.
  destruct d as [| | |d']; try reflexivity.
  assert (D : Rleb 2 d' = false)
    by (apply Rleb_false; apply H; reflexivity).
  rewrite D. reflexivity.
Qed.

(** C6, as the code has it.  After its creation and any sequence of
    assignments to its properties (a drag assigns [value]), the [divisions]
    field of an element is never NaN and never a fraction: it holds an
    integer, which may be negative, or an infinity.  The setter stores what
    [parseInt] reads from the assigned string, and 0 when [parseInt] reads
    no integer; it puts no lower bound on it.  Divisions that are not a
    finite number of 2 or more do not snap: [_update_value] then gives the
    value that it gives with 0 divisions. *)
Theorem divisions_always_an_integer (attrs : Attributes) (doc : target_id)
    (l : list assignment) (x : string) (k : XKnob) :
  whole_divisions (assign_all (createdCallback attrs doc) l)
  /\ get_divisions (set_divisions x k)
     = (if Num.isNaN (parseInt10 x) then Fin 0 else parseInt10 x)
  /\ get_divisions (set_divisions x k) <> NaN
  /\ ((forall d : R, _divisions k = Fin d -> d < 2) ->
      _value (_update_value k)
      = _value (_update_value (with_divisions k (Fin 0)))).
Proof.
  split; [apply element_whole_divisions|].
  split; [apply set_divisions_divisions|].
  split.
  - unfold get_divisions. rewrite set_divisions_divisions.
    unfold int_or_default. destruct (parseInt10 x); discriminate.
  - intros H. rewrite !_update_value_value. f_equal.
    apply ValueTransform_apply_not_snapped, H.
Qed.

Lemma divisions_always_an_integer_witness :
  (forall d : R,
     _divisions (set_divisions "-5" default_knob) = Fin d -> d < 2)
  /\ _value (_update_value (set_divisions "-5" default_knob))
     = _value (_update_value
                 (with_divisions (set_divisions "-5" default_knob) (Fin 0))).
Proof.
  assert (H : forall d : R,
            _divisions (set_divisions "-5" default_knob) = Fin d -> d < 2).
  { intros d. rewrite set_divisions_divisions.
    change (int_or_default "-5" (Fin 0)) with (Fin (-5)).
    intros E. injection E as <-. lra. }
  split; [exact H|].
  apply (divisions_always_an_integer
           (mkAttributes None None None None None) 0%nat []
           "-5" (set_divisions "-5" default_knob)).
  exact H.
Defined.

(** C6 fails as stated: assigning ["-5"] leaves the negative number [-5] in
    the field that the getter returns. *)
Lemma divisions_setter_keeps_negative :
  get_divisions (set_divisions "-5" default_knob) = Fin (-5)
  /\ Num.ge (get_divisions (set_divisions "-5" default_knob)) (Fin 0) = false.
Proof.
  assert (E : get_divisions (set_divisions "-5" default_knob) = Fin (-5)).
  { unfold get_divisions, set_divisions.
    rewrite (proj1 (_update_value_configuration _)). reflexivity. }
  rewrite E. split; [reflexivity|].
  unfold Num.ge, Num.le. apply Rleb_false. lra.
Qed.

Local Close Scope string_scope.

(** ** The listener table *)

Lemma filter_twice {A : Type} (f g : A -> bool) (l : list A) :
  filter f (filter g l) = filter (fun x => g x && f x) l.
Proof.
  induction l as [|a l IH]; cbn; [reflexivity|].
  destruct (g a); cbn; [destruct (f a)|]; rewrite IH; reflexivity.
Qed.

Local Open Scope string_scope.

Lemma remove_four_listeners (doc : target_id) (ls : list listener) :
  removeEventListener (doc, "touchmove", h_drag_rotate)
    (removeEventListener (doc, "touchend", h_stop_dragging)
       (removeEventListener (doc, "mousemove", h_drag_rotate)
          (removeEventListener (doc, "mouseup", h_stop_dragging) ls)))
  = filter (fun l => negb (drag_listener_of doc l)) ls.
Proof.
  unfold removeEventListener.
  rewrite !filter_twice. apply filter_ext. intros l.
  unfold drag_listener_of.
  repeat match goal with
         | |- context [listener_eqb ?a l] =>
             generalize (listener_eqb a l); intros []
         end; reflexivity.
Qed.

Lemma remove_listeners_from_document_listeners (elem : EventTarget)
    (w : World) :
  listeners (remove_listeners_from_document elem w)
  = filter (fun l => negb (drag_listener_of (document_of elem) l))
           (listeners w).
Proof. apply remove_four_listeners. Qed.

Lemma remove_listeners_from_document_twice (elem : EventTarget) (w : World) :
  remove_listeners_from_document elem (remove_listeners_from_document elem w)
  = remove_listeners_from_document elem w.
Proof.
  unfold remove_listeners_from_document. cbv zeta.
  unfold with_listeners.
  cbn [knobs xknob_being_dragged xknob_drag_previous_angle
       xknob_drag_previous_value xknob_drag_initial_value listeners
       dispatched console].
  f_equal. rewrite !remove_four_listeners, filter_twice.
  apply filter_ext. intros l.
  destruct (drag_listener_of _ l); reflexivity.
Qed.

(** ** C9: events that arrive when nothing is dragged *)

(** C9.  When no element is being dragged, a pointer-move and a pointer-up
    do nothing but remove the four listeners from the document of the
    target of the event: the elements, the variables of the drag, the events
    dispatched and the console are as before, and handling the event a
    second time changes nothing more. *)
Theorem stray_event_only_removes_listeners (ev : Event) (w : World) :
  xknob_being_dragged w = None ->
  drag_rotate ev w = remove_listeners_from_document (target ev) w
  /\ stop_dragging ev w = remove_listeners_from_document (target ev) w
  /\ (let w' := remove_listeners_from_document (target ev) w in
      knobs w' = knobs w
      /\ xknob_being_dragged w' = None
      /\ xknob_drag_previous_angle w' = xknob_drag_previous_angle w
      /\ xknob_drag_previous_value w' = xknob_drag_previous_value w
      /\ xknob_drag_initial_value w' = xknob_drag_initial_value w
      /\ dispatched w' = dispatched w
      /\ console w' = console w
      /\ listeners w'
         = filter
             (fun l => negb (drag_listener_of (document_of (target ev)) l))
             (listeners w))
  /\ drag_rotate ev (drag_rotate ev w) = drag_rotate ev w
  /\ stop_dragging ev (stop_dragging ev w) = stop_dragging ev w.
Proof.
  intros H.
  assert (D : drag_rotate ev w = remove_listeners_from_document (target ev) w)
    by (unfold drag_rotate; rewrite H; reflexivity).
  assert (S : stop_dragging ev w = remove_listeners_from_document (target ev) w)
    by (unfold stop_dragging; rewrite H; reflexivity).
  assert (N : xknob_being_dragged
                (remove_listeners_from_document (target ev) w) = None)
    by exact H.
  split; [exact D|]. split; [exact S|]. split.
  - cbv zeta. repeat (split; [first [reflexivity | exact H]|]).
    apply remove_listeners_from_document_listeners.
  - rewrite D, S. unfold drag_rotate, stop_dragging. rewrite N.
    split; apply remove_listeners_from_document_twice.
Qed.

Lemma stray_event_only_removes_listeners_witness :
  xknob_being_dragged idle_world = None
  /\ drag_rotate (mouse_event "mousemove" 0 60 50) idle_world
     = remove_listeners_from_document
         (target (mouse_event "mousemove" 0 60 50)) idle_world.
Proof.
  split; [reflexivity|].
  apply (stray_event_only_removes_listeners
           (mouse_event "mousemove" 0 60 50) idle_world).
  reflexivity.
Defined.

Local Close Scope string_scope.

(** ** What each handler does to the variables of the drag *)

Lemma update_knob_same (ks : ref -> XKnob) (x : ref) (k : XKnob) :
  update_knob ks x k x = k.
Proof. unfold update_knob. rewrite Nat.eqb_refl. reflexivity. Qed.

Lemma update_knob_other (ks : ref -> XKnob) (x y : ref) (k : XKnob) :
  y <> x -> update_knob ks x k y = ks y.
Proof.
  intros H. unfold update_knob.
  destruct (Nat.eqb_spec y x); [contradiction|reflexivity].
Qed.

Section Handlers.

Local Open Scope string_scope.
Local Open Scope list_scope.

Variable ev : Event.
Variable w : World.

(** A pointer-down that starts a session. *)
Lemma start_dragging_accepted (xknob : ref) :
  xknob_being_dragged (snd (start_dragging ev w)) = Some xknob ->
  (String.eqb (type ev) "mousedown" && negb (Z.eqb (button ev) 0) = false)
  /\ find_shadow_root (currentTarget ev) = Some (Some xknob)
  /\ fst (start_dragging ev w) = stopPropagation (preventDefault ev)
  /\ knobs (snd (start_dragging ev w)) = knobs w
  /\ xknob_drag_previous_angle (snd (start_dragging ev w))
     = Some (_get_mouse_angle ev)
  /\ xknob_drag_previous_value (snd (start_dragging ev w))
     = Some (get_value (knobs w xknob))
  /\ xknob_drag_initial_value (snd (start_dragging ev w))
     = Some (get_value (knobs w xknob))
  /\ dispatched (snd (start_dragging ev w)) = dispatched w
  /\ console (snd (start_dragging ev w)) = console w.
Proof.
  unfold start_dragging. cbv zeta.
  destruct (String.eqb (type ev) "mousedown" && negb (Z.eqb (button ev) 0));
    [cbn; discriminate|].
  destruct (find_shadow_root (currentTarget ev)) as [[x|]|];
    try (cbn; discriminate).
  cbn. intros H. injection H as ->. repeat split.
Qed.

(** A pointer-down that is turned away. *)
Lemma start_dragging_rejected :
  String.eqb (type ev) "mousedown" && negb (Z.eqb (button ev) 0) = true ->
  start_dragging ev w
  = (ev, with_being_dragged
           (remove_listeners_from_document (target ev) w) None).
Proof. intros H. unfold start_dragging. rewrite H. reflexivity. Qed.

Lemma drag_rotate_active (xknob : ref) :
  xknob_being_dragged w = Some xknob ->
  xknob_being_dragged (drag_rotate ev w) = Some xknob
  /\ xknob_drag_previous_angle (drag_rotate ev w)
     = Some (_get_mouse_angle ev)
  /\ xknob_drag_previous_value (drag_rotate ev w) = Some (proposed_value ev w)
  /\ xknob_drag_initial_value (drag_rotate ev w)
     = xknob_drag_initial_value w
  /\ listeners (drag_rotate ev w) = listeners w
  /\ knobs (drag_rotate ev w)
     = update_knob (knobs w) xknob
         (set_value (JNum (proposed_value ev w)) (knobs w xknob))
  /\ dispatched (drag_rotate ev w)
     = dispatched w
       ++ (if Num.strict_neq
                (get_value (knobs w xknob))
                (get_value (set_value (JNum (proposed_value ev w))
                                      (knobs w xknob)))
           then [(xknob, "input")] else [])
  /\ console (drag_rotate ev w)
     = console w
       ++ (if delta_angle_asserted
                (delta_angle_of (_get_mouse_angle ev)
                                (xknob_drag_previous_angle w))
           then []
           else [mkFailure
                   (delta_angle_of (_get_mouse_angle ev)
                                   (xknob_drag_previous_angle w))
                   (xknob_drag_previous_angle w) (_get_mouse_angle ev)]).
Proof.
  intros H. unfold drag_rotate. rewrite H. cbv zeta.
  fold (proposed_value ev w).
  unfold console_assert.
  destruct (delta_angle_asserted _);
    cbn [knobs with_knobs with_previous_value with_previous_angle
         with_console xknob_being_dragged xknob_drag_previous_angle
         xknob_drag_previous_value xknob_drag_initial_value listeners
         dispatched console];
    fold (proposed_value ev w);
    rewrite update_knob_same;
    destruct (Num.strict_neq _ _);
    cbn; rewrite ?app_nil_r; repeat split; assumption.
Qed.

(** A pointer-move leaves the other elements alone. *)
Lemma drag_rotate_other_knobs (xknob other : ref) :
  xknob_being_dragged w = Some xknob -> other <> xknob ->
  knobs (drag_rotate ev w) other = knobs w other.
Proof.
  intros H N.
  destruct (drag_rotate_active xknob H) as (_ & _ & _ & _ & _ & K & _).
  rewrite K. apply update_knob_other, N.
Qed.

Lemma stop_dragging_active (xknob : ref) :
  xknob_being_dragged w = Some xknob ->
  xknob_being_dragged (stop_dragging ev w) = None
  /\ xknob_drag_previous_angle (stop_dragging ev w)
     = xknob_drag_previous_angle w
  /\ xknob_drag_previous_value (stop_dragging ev w)
     = xknob_drag_previous_value w
  /\ xknob_drag_initial_value (stop_dragging ev w)
     = xknob_drag_initial_value w
  /\ knobs (stop_dragging ev w) = knobs w
  /\ console (stop_dragging ev w) = console w
  /\ dispatched (stop_dragging ev w)
     = dispatched w
       ++ (if strict_neq_null (xknob_drag_initial_value w)
                              (get_value (knobs w xknob))
           then [(xknob, "change")] else []).
Proof.
  intros H. unfold stop_dragging. rewrite H. cbv zeta.
  destruct (strict_neq_null _ _); cbn; rewrite ?app_nil_r; repeat split.
Qed.

End Handlers.

(** ** Strict inequality of numbers *)

Lemma strict_neq_true (a b : number) :
  a <> NaN -> (Num.strict_neq a b = true <-> a <> b).
Proof.
  intros N. unfold Num.strict_neq, Num.strict_eq.
  destruct a, b; cbn; try (split; congruence).
  rcases; cbn; split; intros H; congruence.
Qed.

Lemma strict_neq_false (a b : number) :
  a <> NaN -> (Num.strict_neq a b = false <-> a = b).
Proof.
  intros N. unfold Num.strict_neq, Num.strict_eq.
  destruct a, b; cbn; try (split; congruence).
  rcases; cbn; split; intros H; congruence.
Qed.

Lemma strict_neq_Fin_true (a : number) (r : R) :
  Num.strict_neq a (Fin r) = true <-> a <> Fin r.
Proof.
  destruct a as [| | |s];
    [cbn; split; [discriminate|reflexivity]
    |apply strict_neq_true; discriminate ..].
Qed.

Lemma strict_neq_Fin_false (a : number) (r : R) :
  Num.strict_neq a (Fin r) = false <-> a = Fin r.
Proof.
  destruct a as [| | |s];
    [cbn; split; discriminate
    |apply strict_neq_false; discriminate ..].
Qed.

(** ** C3: when a drag step dispatches [input] *)

Local Open Scope string_scope.
Local Open Scope list_scope.

(** C3.  A pointer-move handled while [xknob] is being dragged assigns the
    proposed value to [xknob.value], and dispatches one [input] event on
    [xknob] if the sanitised value of [xknob] is then another than before
    the step, and no event at all if it is the same. *)
Theorem input_fires_iff_value_changes (ev : Event) (w : World)
    (xknob : ref) :
  xknob_being_dragged w = Some xknob ->
  knobs (drag_rotate ev w) xknob
  = set_value (JNum (proposed_value ev w)) (knobs w xknob)
  /\ (get_value (knobs (drag_rotate ev w) xknob) <> get_value (knobs w xknob)
      -> dispatched (drag_rotate ev w) = dispatched w ++ [(xknob, "input")])
  /\ (get_value (knobs (drag_rotate ev w) xknob) = get_value (knobs w xknob)
      -> dispatched (drag_rotate ev w) = dispatched w).
Proof.
  intros H.
  destruct (drag_rotate_active ev w xknob H) as (_ & _ & _ & _ & _ & K & D & _).
  rewrite K, update_knob_same, D.
  split; [reflexivity|].
  rewrite set_value_value.
  split; intros E.
  - assert (T : get_value (knobs w xknob)
                <> Fin (ValueTransform_apply (parseFloat (JNum (proposed_value ev w)))
                          (_min (knobs w xknob)) (_max (knobs w xknob))
                          (_divisions (knobs w xknob)))) by congruence.
    apply strict_neq_Fin_true in T. rewrite T. reflexivity.
  - symmetry in E. apply strict_neq_Fin_false in E. rewrite E.
    apply app_nil_r.
Qed.

Local Close Scope string_scope.

(** ** C2: the [change] event of a drag *)

Local Open Scope string_scope.
Local Open Scope list_scope.

Lemma drag_moves_session (moves : list Event) :
  forall (w : World) (xknob : ref),
    xknob_being_dragged w = Some xknob ->
    get_value (knobs w xknob) <> NaN ->
    xknob_being_dragged (drag_moves moves w) = Some xknob
    /\ xknob_drag_initial_value (drag_moves moves w)
       = xknob_drag_initial_value w
    /\ change_events (dispatched (drag_moves moves w))
       = change_events (dispatched w)
    /\ get_value (knobs (drag_moves moves w) xknob) <> NaN.
Proof.
  induction moves as [|ev moves IH]; intros w xknob H N.
  - repeat split; assumption.
  - change (drag_moves (ev :: moves) w)
      with (drag_moves moves (drag_rotate ev w)).
    destruct (drag_rotate_active ev w xknob H)
      as (B & _ & _ & I & _ & K & D & _).
    assert (N' : get_value (knobs (drag_rotate ev w) xknob) <> NaN).
    { rewrite K, update_knob_same, set_value_value. discriminate. }
    destruct (IH (drag_rotate ev w) xknob B N') as (B' & I' & D' & N'').
    repeat split; try assumption; [congruence|].
    rewrite D', D. unfold change_events. rewrite filter_app.
    destruct (Num.strict_neq _ _); cbn; apply app_nil_r.
Qed.

(** C2.  Take a pointer-down that starts a session on [xknob], whose value
    is a number, then any pointer-moves, then a pointer-up.  The value kept
    as initial is the one [xknob] had at the pointer-down; no [change] event
    is dispatched before the pointer-up; the pointer-up dispatches one
    [change] event on [xknob] if the value of [xknob] is then another than
    the initial one, and nothing if it is the same; and the session is
    over. *)
Theorem change_fires_once_at_pointer_up (w0 : World) (down up : Event)
    (moves : list Event) (xknob : ref) :
  xknob_being_dragged (snd (start_dragging down w0)) = Some xknob ->
  get_value (knobs w0 xknob) <> NaN ->
  let w1 := snd (start_dragging down w0) in
  let w2 := drag_moves moves w1 in
  let w3 := stop_dragging up w2 in
  xknob_drag_initial_value w1 = Some (get_value (knobs w0 xknob))
  /\ change_events (dispatched w2) = change_events (dispatched w0)
  /\ (get_value (knobs w2 xknob) <> get_value (knobs w0 xknob) ->
      dispatched w3 = dispatched w2 ++ [(xknob, "change")])
  /\ (get_value (knobs w2 xknob) = get_value (knobs w0 xknob) ->
      dispatched w3 = dispatched w2)
  /\ xknob_being_dragged w3 = None.
Proof.
  intros H N w1 w2 w3.
  destruct (start_dragging_accepted down w0 xknob H)
    as (_ & _ & _ & K1 & _ & _ & I1 & D1 & _).
  fold w1 in H, K1, I1, D1.
  assert (N1 : get_value (knobs w1 xknob) <> NaN) by (rewrite K1; exact N).
  destruct (drag_moves_session moves w1 xknob H N1) as (B2 & I2 & D2 & N2).
  fold w2 in B2, I2, D2, N2.
  destruct (stop_dragging_active up w2 xknob B2)
    as (B3 & _ & _ & _ & _ & _ & D3).
  fold w3 in B3, D3.
  rewrite I2, I1 in D3. cbn [strict_neq_null] in D3.
  split; [exact I1|]. split; [rewrite D2, D1; reflexivity|].
  split; [|split; [|exact B3]]; intros E; rewrite D3.
  - assert (T : get_value (knobs w0 xknob) <> get_value (knobs w2 xknob))
      by congruence.
    apply strict_neq_true in T; [|exact N]. rewrite T. reflexivity.
  - symmetry in E. apply strict_neq_false in E; [|exact N]. rewrite E.
    apply app_nil_r.
Qed.

Lemma input_fires_iff_value_changes_witness :
  xknob_being_dragged dragging_world = Some 0%nat
  /\ knobs (drag_rotate quarter_turn dragging_world) 0%nat
     = set_value (JNum (proposed_value quarter_turn dragging_world))
                 (knobs dragging_world 0%nat).
Proof.
  split; [reflexivity|].
  apply (input_fires_iff_value_changes quarter_turn dragging_world 0%nat).
  reflexivity.
Defined.

Lemma change_fires_once_at_pointer_up_witness :
  xknob_being_dragged (snd (start_dragging press idle_world)) = Some 0%nat
  /\ get_value (knobs idle_world 0%nat) <> NaN
  /\ change_events
       (dispatched (drag_moves [quarter_turn]
                      (snd (start_dragging press idle_world))))
     = change_events (dispatched idle_world)
  /\ xknob_being_dragged
       (stop_dragging release
          (drag_moves [quarter_turn] (snd (start_dragging press idle_world))))
     = None.
Proof.
  split; [reflexivity|]. split; [discriminate|].
  pose proof (change_fires_once_at_pointer_up idle_world press release
                [quarter_turn] 0%nat eq_refl) as H.
  cbv zeta in H.
  split; apply H; discriminate.
Defined.

(** ** C7: a pointer-down of another button than the left one *)

(** C7, as the code has it.  A [mousedown] of a button other than the left
    one starts no session: the handler removes the listeners, sets
    [xknob_being_dragged] to [null] and returns at once, before
    [preventDefault] and [stopPropagation], so that the event is left as it
    came, its default action not suppressed. *)
Theorem non_primary_mousedown_is_ignored (ev : Event) (w : World) :
  type ev = "mousedown" -> button ev <> 0%Z ->
  start_dragging ev w
  = (ev, with_being_dragged
           (remove_listeners_from_document (target ev) w) None)
  /\ xknob_being_dragged (snd (start_dragging ev w)) = None
  /\ defaultPrevented (fst (start_dragging ev w)) = defaultPrevented ev
  /\ propagationStopped (fst (start_dragging ev w)) = propagationStopped ev
  /\ knobs (snd (start_dragging ev w)) = knobs w
  /\ dispatched (snd (start_dragging ev w)) = dispatched w.
Proof.
  intros T B.
  assert (E : start_dragging ev w
              = (ev, with_being_dragged
                       (remove_listeners_from_document (target ev) w) None)).
  { apply start_dragging_rejected. rewrite T.
    destruct (Z.eqb_spec (button ev) 0); [contradiction|reflexivity]. }
  rewrite E. repeat split.
Qed.

Lemma non_primary_mousedown_is_ignored_witness :
  type right_press = "mousedown" /\ button right_press <> 0%Z
  /\ start_dragging right_press idle_world
     = (right_press,
        with_being_dragged
          (remove_listeners_from_document (target right_press) idle_world)
          None).
Proof.
  split; [reflexivity|]. split; [discriminate|].
  apply (non_primary_mousedown_is_ignored right_press idle_world);
    [reflexivity|discriminate].
Defined.

(** A session starts only on an event that is no [mousedown] (the handler
    is attached to [mousedown] and [touchstart]) or on a [mousedown] of the
    left button. *)
Lemma session_started_only_by_touch_or_left_button (ev : Event) (w : World)
    (xknob : ref) :
  xknob_being_dragged (snd (start_dragging ev w)) = Some xknob ->
  type ev <> "mousedown" \/ button ev = 0%Z.
Proof.
  intros H. destruct (start_dragging_accepted ev w xknob H) as (C & _).
  destruct (String.eqb_spec (type ev) "mousedown"); [|left; assumption].
  destruct (Z.eqb_spec (button ev) 0); [right; assumption|discriminate].
Qed.

(** C7 fails as stated: the right press is turned away with its default
    action not suppressed. *)
Lemma right_press_default_not_prevented :
  type right_press = "mousedown" /\ button right_press = 2%Z
  /\ xknob_being_dragged (snd (start_dragging right_press idle_world)) = None
  /\ defaultPrevented (fst (start_dragging right_press idle_world)) = false.
Proof. repeat split. Qed.

(** ** C8: what a pointer-up clears *)

(** C8, as the code has it.  A pointer-up that ends a drag clears the
    active element, [xknob_being_dragged]; the previous angle, the proposed
    value and the initial value keep what the drag left in them. *)
Theorem pointer_up_clears_the_active_element_only (ev : Event) (w : World)
    (xknob : ref) :
  xknob_being_dragged w = Some xknob ->
  xknob_being_dragged (stop_dragging ev w) = None
  /\ xknob_drag_previous_angle (stop_dragging ev w)
     = xknob_drag_previous_angle w
  /\ xknob_drag_previous_value (stop_dragging ev w)
     = xknob_drag_previous_value w
  /\ xknob_drag_initial_value (stop_dragging ev w)
     = xknob_drag_initial_value w.
Proof.
  intros H.
  destruct (stop_dragging_active ev w xknob H) as (B & A & P & I & _).
  repeat split; assumption.
Qed.

Lemma pointer_up_clears_the_active_element_only_witness :
  xknob_being_dragged dragging_world = Some 0%nat
  /\ xknob_being_dragged (stop_dragging release dragging_world) = None.
Proof.
  split; [reflexivity|].
  apply (pointer_up_clears_the_active_element_only release dragging_world
           0%nat).
  reflexivity.
Defined.

(** C8 fails as stated: after the press and the release, three of the four
    variables still hold the data of the drag. *)
Lemma pointer_up_leaves_session_data :
  xknob_being_dragged dragging_world = Some 0%nat
  /\ xknob_drag_previous_angle (stop_dragging release dragging_world)
     = Some (_get_mouse_angle press)
  /\ xknob_drag_previous_value (stop_dragging release dragging_world)
     = Some (Fin 0)
  /\ xknob_drag_initial_value (stop_dragging release dragging_world)
     = Some (Fin 0)
  /\ xknob_drag_initial_value (stop_dragging release dragging_world) <> None.
Proof.
  destruct (stop_dragging_active release dragging_world 0%nat eq_refl)
    as (_ & A & P & I & _).
  rewrite A, P, I. repeat split. discriminate.
Qed.

Local Close Scope string_scope.

(** ** C4: the angle turned between two events *)

Lemma atan2R_range (y x : R) : - PI < Math.atan2R y x <= PI.
Proof.
  pose proof PI_RGT_0 as P.
  pose proof (atan_bound (y / x)) as B.
  unfold Math.atan2R. rcases; try lra.
  - (* x < 0, 0 <= y *)
    assert (A : atan (y / x) <= 0).
    { destruct C1 as [Y | <-].
      - left. rewrite <- atan_0. apply atan_increasing.
        apply Rdiv_pos_neg; assumption.
      - rewrite Rdiv_0_l, atan_0. lra. }
    lra.
  - (* x < 0, y < 0 *)
    assert (A : 0 < atan (y / x)).
    { rewrite <- atan_0. apply atan_increasing.
      apply Rdiv_neg_neg; assumption. }
    lra.
Qed.

Lemma isFinite_Fin (x : number) :
  Num.isFinite x = true -> exists r : R, x = Fin r.
Proof. destruct x; try discriminate. eauto. Qed.

Lemma div_by_two (a : R) : Num.div (Fin a) (Fin 2) = Fin (a / 2).
Proof. unfold Num.div. rcases; try lra; reflexivity. Qed.

Lemma div_by_PI (a : R) : Num.div (Fin a) Math.PI = Fin (a / PI).
Proof.
  pose proof PI_RGT_0. unfold Num.div, Math.PI. rcases; try lra; reflexivity.
Qed.

Lemma _get_mouse_angle_range (ev : Event) :
  finite_pointer ev = true ->
  exists a : R,
    _get_mouse_angle ev = Fin a /\ - (PI / 2) < a <= 3 * PI / 2.
Proof.
  unfold finite_pointer. rewrite !andb_true_iff.
  intros (((((L & R) & T) & B) & X) & Y).
  apply isFinite_Fin in L, R, T, B, X, Y.
  destruct L as [l L], R as [r R], T as [t T], B as [b B],
    X as [x X], Y as [y Y].
  unfold _get_mouse_angle, _get_center_position. fold (pointer_position ev).
  rewrite L, R, T, B, X, Y. cbn [fst snd Num.sub Num.add Num.neg].
  rewrite !div_by_two. unfold Math.PI. rewrite div_by_two.
  cbn [Num.add Num.neg Math.atan2].
  eexists. split; [reflexivity|].
  match goal with
  | |- context [Math.atan2R ?dy ?dx] =>
      pose proof (atan2R_range dy dx)
  end.
  lra.
Qed.

Lemma delta_angle_of_shortest (a1 a0 : R) :
  - (PI / 2) < a0 <= 3 * PI / 2 -> - (PI / 2) < a1 <= 3 * PI / 2 ->
  delta_angle_of (Fin a1) (Some (Fin a0)) = Fin (shortest_delta a1 a0)
  /\ - PI <= shortest_delta a1 a0 <= PI.
Proof.
  pose proof PI_RGT_0 as P. intros H0 H1.
  unfold delta_angle_of, shortest_delta, Math.PI, Num.gt.
  cbn [to_number Num.sub Num.neg Num.add Num.lt Num.mul]. cbv zeta.
  unfold Rminus.
  destruct (Rltb (a1 + - a0) 0) eqn:C;
    [apply Rltb_true in C|apply Rltb_false in C];
    cbn [Num.lt Num.add Num.neg].
  - replace (a1 + - a0 + 2 * PI) with (a1 + - a0 + PI * 2) by lra.
    destruct (Rltb PI (a1 + - a0 + PI * 2)) eqn:C';
      [apply Rltb_true in C'|apply Rltb_false in C'];
      cbn [Num.sub Num.add Num.neg]; split; try lra; f_equal; lra.
  - destruct (Rltb PI (a1 + - a0)) eqn:C';
      [apply Rltb_true in C'|apply Rltb_false in C'];
      cbn [Num.sub Num.add Num.neg]; split; try lra; f_equal; lra.
Qed.

Lemma delta_angle_asserted_in_range (d : R) :
  - PI <= d <= PI -> delta_angle_asserted (Fin d) = true.
Proof.
  intros H. unfold delta_angle_asserted, Num.ge, Math.PI. cbn.
  apply andb_true_iff. split; apply Rleb_true; lra.
Qed.

(** C4.  Take a drag of [xknob] whose previous angle was computed from an
    event [ev0] and a pointer-move [ev1], both with finite coordinates.  The
    two angles [a0] and [a1] are finite and lie between [-PI/2] (excluded)
    and [3 PI/2]; the angle turned, as [drag_rotate] computes it, is
    [a1 - a0], plus [2 PI] if that is negative, minus [2 PI] if the result
    is above [PI]; it lies between [-PI] and [PI]; the assertion holds, so
    that nothing is written to the console; the proposed value grows by the
    angle turned divided by [2 PI]; and when [a1 - a0] is [PI/2] the angle
    turned is [PI/2] and the proposed value grows by a quarter of a turn. *)
Theorem delta_angle_within_half_turn (w : World) (xknob : ref)
    (ev0 ev1 : Event) (p : R) :
  xknob_being_dragged w = Some xknob ->
  xknob_drag_previous_angle w = Some (_get_mouse_angle ev0) ->
  xknob_drag_previous_value w = Some (Fin p) ->
  finite_pointer ev0 = true -> finite_pointer ev1 = true ->
  exists a0 a1 d : R,
    _get_mouse_angle ev0 = Fin a0 /\ - (PI / 2) < a0 <= 3 * PI / 2
    /\ _get_mouse_angle ev1 = Fin a1 /\ - (PI / 2) < a1 <= 3 * PI / 2
    /\ delta_angle_of (_get_mouse_angle ev1) (xknob_drag_previous_angle w)
       = Fin d
    /\ d = shortest_delta a1 a0
    /\ - PI <= d <= PI
    /\ delta_angle_asserted (Fin d) = true
    /\ console (drag_rotate ev1 w) = console w
    /\ xknob_drag_previous_value (drag_rotate ev1 w)
       = Some (Fin (p + d / (2 * PI)))
    /\ (a1 - a0 = PI / 2 ->
        d = PI / 2
        /\ xknob_drag_previous_value (drag_rotate ev1 w)
           = Some (Fin (p + / 4))).
Proof.
  intros B A V F0 F1. pose proof PI_RGT_0 as P.
  destruct (_get_mouse_angle_range ev0 F0) as (a0 & E0 & R0).
  destruct (_get_mouse_angle_range ev1 F1) as (a1 & E1 & R1).
  destruct (delta_angle_of_shortest a1 a0) as (D & RD); try assumption.
  rewrite <- E0, <- E1, <- A in D.
  pose proof (delta_angle_asserted_in_range _ RD) as S.
  destruct (drag_rotate_active ev1 w xknob B)
    as (_ & _ & PV & _ & _ & _ & _ & CO).
  rewrite D, S, app_nil_r in CO.
  assert (Q : xknob_drag_previous_value (drag_rotate ev1 w)
              = Some (Fin (p + shortest_delta a1 a0 / (2 * PI)))).
  { rewrite PV. unfold proposed_value.
    rewrite D, V, div_by_PI, div_by_two. cbn [to_number Num.add].
    do 2 f_equal. field. lra. }
  exists a0, a1, (shortest_delta a1 a0).
  repeat (split; try assumption); try lra.
  - unfold shortest_delta. cbv zeta. rcases; lra.
  - rewrite Q. do 2 f_equal.
    replace (shortest_delta a1 a0) with (PI / 2)
      by (unfold shortest_delta; cbv zeta; rcases; lra).
    field. lra.
Qed.

(** *** The quarter of a turn of the scene, step by step *)

Lemma press_angle : _get_mouse_angle press = Fin 0.
Proof.
  unfold _get_mouse_angle, _get_center_position, press, mouse_event.
  cbn [knob_center_rect centre_rect rect_left rect_right rect_top rect_bottom
       targetTouches clientX clientY fst snd Num.sub Num.add Num.neg].
  rewrite !div_by_two. unfold Math.PI. rewrite div_by_two.
  cbn [Num.add Num.neg Math.atan2]. f_equal.
  unfold Math.atan2R. rcases; lra.
Qed.

Lemma quarter_turn_angle : _get_mouse_angle quarter_turn = Fin (PI / 2).
Proof.
  unfold _get_mouse_angle, _get_center_position, quarter_turn, mouse_event.
  cbn [knob_center_rect centre_rect rect_left rect_right rect_top rect_bottom
       targetTouches clientX clientY fst snd Num.sub Num.add Num.neg].
  rewrite !div_by_two. unfold Math.PI. rewrite div_by_two.
  cbn [Num.add Num.neg Math.atan2]. f_equal.
  unfold Math.atan2R. rcases; try lra.
  match goal with
  | |- atan ?q + _ = _ => replace q with 0 by lra
  end.
  rewrite atan_0. lra.
Qed.

Lemma quarter_turn_proposed_value :
  proposed_value quarter_turn dragging_world = Fin (/ 4).
Proof.
  pose proof PI_RGT_0 as P.
  unfold proposed_value.
  change (xknob_drag_previous_angle dragging_world)
    with (Some (_get_mouse_angle press)).
  change (xknob_drag_previous_value dragging_world) with (Some (Fin 0)).
  rewrite press_angle, quarter_turn_angle.
  unfold delta_angle_of, Math.PI, Num.gt.
  cbn [to_number Num.sub Num.neg Num.add Num.lt Num.mul].
  rcases; try lra.
  fold Math.PI. rewrite div_by_PI, div_by_two. cbn [to_number Num.add].
  f_equal. field. lra.
Qed.

Lemma delta_angle_within_half_turn_witness :
  xknob_being_dragged dragging_world = Some 0%nat
  /\ xknob_drag_previous_angle dragging_world = Some (_get_mouse_angle press)
  /\ xknob_drag_previous_value dragging_world = Some (Fin 0)
  /\ finite_pointer press = true
  /\ finite_pointer quarter_turn = true
  /\ delta_angle_of (_get_mouse_angle quarter_turn)
                    (xknob_drag_previous_angle dragging_world)
     = Fin (PI / 2)
  /\ xknob_drag_previous_value (drag_rotate quarter_turn dragging_world)
     = Some (Fin (0 + / 4)).
Proof.
  repeat (split; [reflexivity|]).
  destruct (delta_angle_within_half_turn dragging_world 0%nat press
              quarter_turn 0 eq_refl eq_refl eq_refl eq_refl eq_refl)
    as (a0 & a1 & d & E0 & _ & E1 & _ & D & _ & _ & _ & _ & _ & Q).
  rewrite press_angle in E0. rewrite quarter_turn_angle in E1.
  injection E0 as <-. injection E1 as <-.
  destruct Q as [Dd V]; [lra|].
  rewrite D, Dd. split; [reflexivity|exact V].
Defined.

Local Open Scope string_scope.
Local Open Scope list_scope.

(** Press, a quarter of a turn, release: the value goes from 0 to 0.25, one
    [input] event at the move, one [change] event at the release. *)
Example drag_a_quarter_turn :
  let w2 := drag_rotate quarter_turn dragging_world in
  let w3 := stop_dragging release w2 in
  get_value (knobs w2 0%nat) = Fin (/ 4)
  /\ dispatched w2 = [(0%nat, "input")]
  /\ dispatched w3 = [(0%nat, "input"); (0%nat, "change")]
  /\ xknob_being_dragged w3 = None.
Proof.
  cbv zeta.
  destruct (drag_rotate_active quarter_turn dragging_world 0%nat eq_refl)
    as (B & _ & _ & I & _ & K & D & _).
  assert (V : get_value (knobs (drag_rotate quarter_turn dragging_world) 0%nat)
              = Fin (/ 4)).
  { rewrite K, update_knob_same, set_value_value, quarter_turn_proposed_value.
    unfold ValueTransform_apply. cbn. rcases; try lra. reflexivity. }
  assert (D' : dispatched (drag_rotate quarter_turn dragging_world)
               = [(0%nat, "input")]).
  { rewrite D. rewrite K, update_knob_same in V. rewrite V.
    change (get_value (knobs dragging_world 0%nat)) with (Fin 0).
    replace (Num.strict_neq (Fin 0) (Fin (/ 4))) with true; [reflexivity|].
    symmetry. apply strict_neq_Fin_true. intros E. injection E. lra. }
  destruct (stop_dragging_active release
              (drag_rotate quarter_turn dragging_world) 0%nat B)
    as (B3 & _ & _ & _ & _ & _ & D3).
  rewrite I, V, D' in D3.
  change (xknob_drag_initial_value dragging_world) with (Some (Fin 0)) in D3.
  cbn [strict_neq_null] in D3.
  replace (Num.strict_neq (Fin 0) (Fin (/ 4))) with true in D3
    by (symmetry; apply strict_neq_Fin_true; intros E; injection E; lra).
  repeat split; assumption.
Qed.

(** *** [parseInt] and [parseFloat] on some strings *)

Example parseInt10_examples :
  parseInt10 "  42px" = Fin 42 /\ parseInt10 "-5" = Fin (-5)
  /\ parseInt10 "+7.9" = Fin 7 /\ parseInt10 "abc" = NaN
  /\ parseInt10 "" = NaN /\ parseInt10 "- 3" = NaN.
Proof. repeat split. Qed.

Example parseFloat_examples :
  parseFloat_string "0.5" = Fin (/ 2)
  /\ parseFloat_string "-1.5e1xyz" = Fin (-15)
  /\ parseFloat_string ".25" = Fin (/ 4)
  /\ parseFloat_string "3." = Fin 3
  /\ parseFloat_string "1e" = Fin 1
  /\ parseFloat_string "-Infinity" = NInf
  /\ parseFloat_string "." = NaN
  /\ parseFloat_string "knob" = NaN.
Proof.
  repeat split; try reflexivity;
    unfold parseFloat_string; cbv -[IZR Rmult Rinv];
    f_equal; lra.
Qed.

Local Close Scope string_scope.

(** * Further properties *)

(** ** The sanitised value and the bounds *)






(** ** The sanitised value and the divisions *)




(** ** Sanitising twice, where it changes nothing *)

Lemma ValueTransform_apply_clamp_twice (raw : number)
    (mn mx : option number) (d : number) :
  match d with Fin d' => Rleb 2 d' | _ => false end = false ->
  ValueTransform_apply (Fin (ValueTransform_apply raw mn mx d)) mn mx d
  = ValueTransform_apply raw mn mx d.
Proof.
  intros Q. unfold ValueTransform_apply. cbv zeta.
  set (r := match raw with Fin r => r | _ => 0 end).
  assert (S : forall y : R,
             match d with
             | Fin d' => if Rleb 2 d' then IZR (round_half_up (y * d')) / d'
                         else y
             | _ => y
             end = y).
  { intros y. destruct d as [| | |d']; try reflexivity. rewrite Q.
    reflexivity. }
  rewrite !S.
  destruct mx as [[| | |mx]|], mn as [[| | |mn]|]; rcases; lra.
Qed.

(** X4.  Where the value is not snapped ([divisions] below 2 or not
    finite), a second run of [_update_value] leaves the value of the first
    run: sanitising and clamping alone are idempotent. *)
Theorem update_value_twice_without_snap (k : XKnob) :
  quantizes k = false ->
  _value (_update_value (_update_value k)) = _value (_update_value k).
Proof.
  intros Q.
  rewrite (_update_value_value (_update_value k)).
  destruct (_update_value_configuration k) as (D & N & X & _).
  rewrite D, N, X, _update_value_value. f_equal.
  apply ValueTransform_apply_clamp_twice.
  unfold quantizes, Num.ge, Num.le in Q.
  destruct (_divisions k) as [| | |d]; try reflexivity. exact Q.
Qed.

Lemma update_value_twice_without_snap_witness :
  quantizes knob_min_above_max = false
  /\ _value (_update_value (_update_value knob_min_above_max))
     = _value (_update_value knob_min_above_max).
Proof.
  assert (Q : quantizes knob_min_above_max = false).
  { unfold quantizes, Num.ge, Num.le. cbn. apply Rleb_false. lra. }
  split; [exact Q|].
  apply (update_value_twice_without_snap knob_min_above_max Q).
Defined.

(** ** The sanitised value grows with the raw value *)





(** ** The bounds that the setters store *)

Lemma float_or_default_not_NaN (x : jsval) :
  float_or_default Some x None <> Some NaN.
Proof.
  unfold float_or_default. destruct (parseFloat x); cbn; discriminate.
Qed.

Lemma assign_bounds_not_NaN (k : XKnob) (a : assignment) :
  bounds_not_NaN k -> bounds_not_NaN (assign k a).
Proof.
  unfold bounds_not_NaN. intros [N X].
  destruct a as [x | x | x | x | x]; cbn [assign];
    [unfold set_divisions | unfold set_min | unfold set_max
    | unfold set_svgusehref | unfold set_value];
    match goal with
    | |- context [_update_value ?k'] =>
        destruct (_update_value_configuration k') as (_ & EN & EX & _)
    | |- context [_update_innerHTML ?k'] =>
        destruct (_update_innerHTML_configuration k') as (_ & EN & EX & _)
    end;
    rewrite EN, EX; cbn [_min _max with_divisions with_min with_max
                         with_value with_svgusehref];
    split; try assumption; apply float_or_default_not_NaN.
Qed.

(** X7.  However an element was created and whatever was assigned to its
    properties since, its [min] and its [max] are [null] or a number other
    than NaN: a bound that does not read as a number is stored as [null]. *)
Theorem element_bounds_never_NaN (attrs : Attributes) (doc : target_id)
    (l : list assignment) :
  get_min (assign_all (createdCallback attrs doc) l) <> Some NaN
  /\ get_max (assign_all (createdCallback attrs doc) l) <> Some NaN.
Proof.
  apply (element_invariant bounds_not_NaN).
  - intros d. split; discriminate.
  - apply assign_bounds_not_NaN.
  - intros k [N X]. unfold bounds_not_NaN.
    destruct (_update_innerHTML_configuration k) as (_ & EN & EX & _).
    rewrite EN, EX. split; assumption.
Qed.

(** ** Changes of attributes *)

Local Open Scope string_scope.

Lemma lower_char_twice (c : ascii) : lower_char (lower_char c) = lower_char c.
Proof.
  destruct c as [[] [] [] [] [] [] [] []]; reflexivity.
Qed.

Lemma toLowerCase_twice (s : string) :
  toLowerCase (toLowerCase s) = toLowerCase s.
Proof.
  induction s as [|c s IH]; cbn [toLowerCase]; [reflexivity|].
  rewrite lower_char_twice, IH. reflexivity.
Qed.

(** The name of a changed attribute is matched whatever its case: the
    callback does the same for a name and for its lower-case form. *)
Lemma attribute_name_case_is_ignored (attrName : string)
    (oldVal newVal : option string) (k : XKnob) :
  attributeChangedCallback attrName oldVal newVal k
  = attributeChangedCallback (toLowerCase attrName) oldVal newVal k.
Proof.
  unfold attributeChangedCallback. rewrite toLowerCase_twice. reflexivity.
Qed.

Lemma set_min_min (x : jsval) (k : XKnob) :
  _min (set_min x k) = float_or_default Some x None.
Proof.
  unfold set_min.
  destruct (_update_value_configuration
              (with_min k (float_or_default Some x None))) as (_ & N & _).
  rewrite N. reflexivity.
Qed.

Lemma set_max_max (x : jsval) (k : XKnob) :
  _max (set_max x k) = float_or_default Some x None.
Proof.
  unfold set_max.
  destruct (_update_value_configuration
              (with_max k (float_or_default Some x None))) as (_ & _ & X & _).
  rewrite X. reflexivity.
Qed.

(** X8.  When an attribute is removed (its new value is [null]), the
    property goes back to its default: [divisions] to 0, [min] and [max] to
    [null], [value] to the sanitised 0; but [svgusehref] becomes the string
    ["null"], not [null]. *)
Theorem removed_attribute_resets_property (oldVal : option string)
    (k : XKnob) :
  get_divisions (attributeChangedCallback "divisions" oldVal None k) = Fin 0
  /\ get_min (attributeChangedCallback "min" oldVal None k) = None
  /\ get_max (attributeChangedCallback "max" oldVal None k) = None
  /\ get_value (attributeChangedCallback "value" oldVal None k)
     = Fin (ValueTransform_apply (Fin 0) (_min k) (_max k) (_divisions k))
  /\ _svgusehref (attributeChangedCallback "svgusehref" oldVal None k)
     = Some "null".
Proof.
  assert (I : parseInt10 "null" = NaN) by reflexivity.
  assert (F : parseFloat_string "null" = NaN) by reflexivity.
  split; [|split; [|split; [|split; [|reflexivity]]]].
  - change (attributeChangedCallback "divisions" oldVal None k)
      with (set_divisions "null" k).
    unfold get_divisions, set_divisions, int_or_default.
    rewrite (proj1 (_update_value_configuration _)), I. reflexivity.
  - change (attributeChangedCallback "min" oldVal None k)
      with (set_min (JStr "null") k).
    unfold get_min. rewrite set_min_min.
    unfold float_or_default. cbn [parseFloat]. rewrite F. reflexivity.
  - change (attributeChangedCallback "max" oldVal None k)
      with (set_max (JStr "null") k).
    unfold get_max. rewrite set_max_max.
    unfold float_or_default. cbn [parseFloat]. rewrite F. reflexivity.
  - change (attributeChangedCallback "value" oldVal None k)
      with (set_value (JStr "null") k).
    rewrite set_value_value. cbn [parseFloat]. rewrite F. reflexivity.
Qed.





(** ** The listener table, further *)

Lemma listener_eqb_eq (a b : listener) : listener_eqb a b = true <-> a = b.
Proof.
  destruct a as [[t1 ty1] h1], b as [[t2 ty2] h2]. unfold listener_eqb.
  rewrite !andb_true_iff, Nat.eqb_eq, String.eqb_eq.
  split.
  - intros [[-> ->] H]. destruct h1, h2; try discriminate; reflexivity.
  - intros E. injection E as -> -> ->. repeat split. destruct h2; reflexivity.
Qed.

Lemma existsb_listener (l : listener) (ls : list listener) :
  existsb (listener_eqb l) ls = true <-> In l ls.
Proof.
  rewrite existsb_exists. split.
  - intros (x & I & E). apply listener_eqb_eq in E. subst. exact I.
  - intros I. exists l. split; [exact I|]. apply listener_eqb_eq. reflexivity.
Qed.

Lemma addEventListener_present (l : listener) (ls : list listener) :
  In l ls -> addEventListener l ls = ls.
Proof.
  intros I. unfold addEventListener.
  apply existsb_listener in I. rewrite I. reflexivity.
Qed.

Lemma addEventListener_In (l x : listener) (ls : list listener) :
  In x (addEventListener l ls) <-> x = l \/ In x ls.
Proof.
  unfold addEventListener.
  destruct (existsb (listener_eqb l) ls) eqn:E.
  - apply existsb_listener in E. split; [auto|]. intros [-> | I]; assumption.
  - rewrite in_app_iff. cbn. split.
    + intros [H | [H | []]]; auto.
    + intros [-> | H]; auto.
Qed.

Lemma addEventListener_NoDup (l : listener) (ls : list listener) :
  NoDup ls -> NoDup (addEventListener l ls).
Proof.
  intros H. unfold addEventListener.
  destruct (existsb (listener_eqb l) ls) eqn:E; [exact H|].
  assert (N : ~ In l ls).
  { intros I. apply existsb_listener in I. congruence. }
  clear E. induction H as [|x xs NI ND IH]; cbn.
  - constructor; [intros []|constructor].
  - constructor.
    + rewrite in_app_iff. cbn. intros [I | [<- | []]]; [contradiction|].
      apply N. left. reflexivity.
    + apply IH. intros I. apply N. right. exact I.
Qed.

Lemma add_listeners_to_document_registered (elem : EventTarget) (w : World) :
  drag_listeners_registered (document_of elem)
    (listeners (add_listeners_to_document elem w)).
Proof.
  unfold add_listeners_to_document, drag_listeners_registered. cbv zeta.
  cbn [listeners with_listeners].
  repeat split; repeat (apply addEventListener_In; first [left; reflexivity | right]).
Qed.

Lemma with_listeners_same (w : World) (ls : list listener) :
  with_listeners (with_listeners w ls) ls = with_listeners w ls.
Proof. reflexivity. Qed.

(** X10.  Duplicate event listeners are discarded: registering the
    listeners of a drag a second time changes nothing. *)
Theorem add_listeners_to_document_twice (elem : EventTarget) (w : World) :
  add_listeners_to_document elem (add_listeners_to_document elem w)
  = add_listeners_to_document elem w.
Proof.
  destruct (add_listeners_to_document_registered elem w) as (A & B & C & D).
  unfold add_listeners_to_document at 1. cbv zeta.
  rewrite (addEventListener_present _ _ A).
  rewrite (addEventListener_present _ _ B).
  rewrite (addEventListener_present _ _ C).
  rewrite (addEventListener_present _ _ D).
  unfold add_listeners_to_document. cbv zeta.
  cbn [listeners with_listeners]. reflexivity.
Qed.

Lemma drag_listener_of_true (doc : target_id) (l : listener) :
  drag_listener_of doc l = true
  <-> In l [(doc, "mouseup", h_stop_dragging);
            (doc, "mousemove", h_drag_rotate);
            (doc, "touchend", h_stop_dragging);
            (doc, "touchmove", h_drag_rotate)].
Proof.
  unfold drag_listener_of. rewrite !orb_true_iff, !listener_eqb_eq. cbn.
  tauto.
Qed.

Lemma drag_listener_of_target (doc : target_id) (l : listener) :
  drag_listener_of doc l = true -> fst (fst l) = doc.
Proof.
  intros H. apply drag_listener_of_true in H. cbn in H.
  destruct H as [<- | [<- | [<- | [<- | []]]]]; reflexivity.
Qed.

Lemma filter_addEventListener (p : listener -> bool) (l : listener)
    (ls : list listener) :
  p l = false -> filter p (addEventListener l ls) = filter p ls.
Proof.
  intros H. unfold addEventListener.
  destruct (existsb (listener_eqb l) ls); [reflexivity|].
  rewrite filter_app. cbn. rewrite H. apply app_nil_r.
Qed.

(** X11.  Removing the listeners of a drag undoes their registration:
    removing after adding is the same as removing. *)
Theorem remove_listeners_after_add (elem : EventTarget) (w : World) :
  remove_listeners_from_document elem (add_listeners_to_document elem w)
  = remove_listeners_from_document elem w.
Proof.
  unfold remove_listeners_from_document. cbv zeta.
  rewrite !remove_four_listeners.
  unfold add_listeners_to_document. cbv zeta.
  cbn [listeners with_listeners].
  rewrite !filter_addEventListener;
    try (apply negb_false_iff, drag_listener_of_true; cbn; tauto).
  reflexivity.
Qed.

Lemma remove_listeners_from_document_NoDup (elem : EventTarget) (w : World) :
  NoDup (listeners w) ->
  NoDup (listeners (remove_listeners_from_document elem w)).
Proof.
  intros H. rewrite remove_listeners_from_document_listeners.
  apply NoDup_filter, H.
Qed.

Lemma add_listeners_to_document_NoDup (elem : EventTarget) (w : World) :
  NoDup (listeners w) ->
  NoDup (listeners (add_listeners_to_document elem w)).
Proof.
  intros H. unfold add_listeners_to_document. cbv zeta.
  cbn [listeners with_listeners].
  repeat apply addEventListener_NoDup. exact H.
Qed.

Lemma stop_dragging_listeners (ev : Event) (w : World) :
  listeners (stop_dragging ev w)
  = listeners (remove_listeners_from_document (target ev) w).
Proof.
  unfold stop_dragging.
  destruct (xknob_being_dragged w); [|reflexivity].
  cbv zeta. destruct (strict_neq_null _ _); reflexivity.
Qed.

Lemma start_dragging_listeners (ev : Event) (w : World) :
  listeners (snd (start_dragging ev w))
  = listeners (remove_listeners_from_document (target ev) w)
  \/ exists xknob : ref,
       listeners (snd (start_dragging ev w))
       = listeners
           (add_listeners_to_document
              (HTMLElement (ownerDocument (knobs w xknob)))
              (remove_listeners_from_document (target ev) w)).
Proof.
  unfold start_dragging. cbv zeta.
  destruct (String.eqb (type ev) "mousedown" && negb (Z.eqb (button ev) 0));
    [left; reflexivity|].
  destruct (find_shadow_root (currentTarget ev)) as [[x|]|];
    [right; exists x; reflexivity | left; reflexivity | left; reflexivity].
Qed.

Lemma drag_rotate_listeners (ev : Event) (w : World) :
  listeners (drag_rotate ev w) = listeners w
  \/ listeners (drag_rotate ev w)
     = listeners (remove_listeners_from_document (target ev) w).
Proof.
  destruct (xknob_being_dragged w) as [x|] eqn:E.
  - left. apply (drag_rotate_active ev w x E).
  - right. unfold drag_rotate. rewrite E. reflexivity.
Qed.

(** X12.  No handler ever registers a listener twice: a listener table
    without duplicates is without duplicates after a pointer-down, a
    pointer-move and a pointer-up. *)
Theorem handlers_keep_listeners_unique (ev : Event) (w : World) :
  NoDup (listeners w) ->
  NoDup (listeners (snd (start_dragging ev w)))
  /\ NoDup (listeners (drag_rotate ev w))
  /\ NoDup (listeners (stop_dragging ev w)).
Proof.
  intros H.
  pose proof (remove_listeners_from_document_NoDup (target ev) w H) as R.
  split; [|split].
  - destruct (start_dragging_listeners ev w) as [-> | [x ->]]; [exact R|].
    apply add_listeners_to_document_NoDup, R.
  - destruct (drag_rotate_listeners ev w) as [-> | ->]; assumption.
  - rewrite stop_dragging_listeners. exact R.
Qed.

Lemma handlers_keep_listeners_unique_witness :
  NoDup (listeners idle_world)
  /\ NoDup (listeners (snd (start_dragging press idle_world))).
Proof.
  split; [constructor|].
  apply (handlers_keep_listeners_unique press idle_world). constructor.
Defined.

Lemma remove_listeners_from_document_In (elem : EventTarget) (w : World)
    (l : listener) :
  In l (listeners (remove_listeners_from_document elem w))
  <-> In l (listeners w) /\ drag_listener_of (document_of elem) l = false.
Proof.
  rewrite remove_listeners_from_document_listeners, filter_In,
    negb_true_iff.
  reflexivity.
Qed.

Lemma add_listeners_to_document_In (elem : EventTarget) (w : World)
    (l : listener) :
  In l (listeners w) -> In l (listeners (add_listeners_to_document elem w)).
Proof.
  intros H. unfold add_listeners_to_document. cbv zeta.
  cbn [listeners with_listeners].
  repeat (apply addEventListener_In; right). exact H.
Qed.

(** X13.  The handlers only ever remove listeners from one node: the
    document of the target of the event when the target is an
    [HTMLElement], else the target itself.  A listener registered on any
    other node is still registered after a pointer-down, a pointer-move and
    a pointer-up; so the listeners that a drag put on the document stay
    there when the button is released over a target that is no
    [HTMLElement]. *)
Theorem listeners_of_other_nodes_survive (ev : Event) (w : World)
    (l : listener) :
  In l (listeners w) -> fst (fst l) <> document_of (target ev) ->
  In l (listeners (snd (start_dragging ev w)))
  /\ In l (listeners (drag_rotate ev w))
  /\ In l (listeners (stop_dragging ev w)).
Proof.
  intros I N.
  assert (R : In l (listeners
                      (remove_listeners_from_document (target ev) w))).
  { apply remove_listeners_from_document_In. split; [exact I|].
    destruct (drag_listener_of (document_of (target ev)) l) eqn:E;
      [|reflexivity].
    apply drag_listener_of_target in E. contradiction. }
  split; [|split].
  - destruct (start_dragging_listeners ev w) as [-> | [x ->]]; [exact R|].
    apply add_listeners_to_document_In, R.
  - destruct (drag_rotate_listeners ev w) as [-> | ->]; assumption.
  - rewrite stop_dragging_listeners. exact R.
Qed.

Lemma listeners_of_other_nodes_survive_witness :
  In (0%nat, "mouseup", h_stop_dragging) (listeners dragging_world)
  /\ 0%nat <> document_of (OtherTarget 7%nat)
  /\ In (0%nat, "mouseup", h_stop_dragging)
        (listeners
           (stop_dragging
              (mkEvent "mouseup" 0 (OtherTarget 7%nat) TopNode (Fin 0)
                       (Fin 0) [] false false centre_rect)
              dragging_world)).
Proof.
  assert (I : In (0%nat, "mouseup", h_stop_dragging)
                 (listeners dragging_world)) by (left; reflexivity).
  assert (N : 0%nat <> document_of (OtherTarget 7%nat)) by discriminate.
  split; [exact I|]. split; [exact N|].
  apply (listeners_of_other_nodes_survive
           (mkEvent "mouseup" 0 (OtherTarget 7%nat) TopNode (Fin 0) (Fin 0)
                    [] false false centre_rect)
           dragging_world (0%nat, "mouseup", h_stop_dragging) I N).
Defined.

(** X14.  After a pointer-up, whether an element was being dragged or not,
    none of the four listeners of a drag is left on the node that the
    handler removes them from, and no listener was added. *)
Theorem pointer_up_unregisters_drag_listeners (ev : Event) (w : World)
    (l : listener) :
  In l (listeners (stop_dragging ev w)) ->
  In l (listeners w)
  /\ drag_listener_of (document_of (target ev)) l = false.
Proof.
  rewrite stop_dragging_listeners.
  apply remove_listeners_from_document_In.
Qed.

Lemma pointer_up_unregisters_drag_listeners_witness :
  In (7%nat, "mouseup", h_stop_dragging)
     (listeners
        (stop_dragging release
           (with_listeners dragging_world
              [(7%nat, "mouseup", h_stop_dragging)])))
  /\ drag_listener_of (document_of (target release))
       (7%nat, "mouseup", h_stop_dragging) = false.
Proof.
  assert (I : In (7%nat, "mouseup", h_stop_dragging)
                 (listeners
                    (stop_dragging release
                       (with_listeners dragging_world
                          [(7%nat, "mouseup", h_stop_dragging)])))).
  { rewrite stop_dragging_listeners.
    apply remove_listeners_from_document_In. split; [left|]; reflexivity. }
  split; [exact I|].
  apply (pointer_up_unregisters_drag_listeners release
           (with_listeners dragging_world
              [(7%nat, "mouseup", h_stop_dragging)])
           (7%nat, "mouseup", h_stop_dragging) I).
Defined.

(** ** Pointer-down: the accepted case and what it never does *)

(** X15.  A pointer-down that is no [mousedown] of another button than the
    left one, on a node below a shadow root with host [xknob], starts a
    session: the event has its default action prevented and its
    propagation stopped, [xknob] is the dragged element, the proposed and
    the initial value are the value of [xknob], the previous angle is the
    angle of the event, no element has changed, and the four listeners are
    registered on the document of [xknob]. *)
Theorem pointer_down_starts_session (ev : Event) (w : World) (xknob : ref) :
  type ev <> "mousedown" \/ button ev = 0%Z ->
  find_shadow_root (currentTarget ev) = Some (Some xknob) ->
  defaultPrevented (fst (start_dragging ev w)) = true
  /\ propagationStopped (fst (start_dragging ev w)) = true
  /\ xknob_being_dragged (snd (start_dragging ev w)) = Some xknob
  /\ xknob_drag_previous_angle (snd (start_dragging ev w))
     = Some (_get_mouse_angle ev)
  /\ xknob_drag_previous_value (snd (start_dragging ev w))
     = Some (get_value (knobs w xknob))
  /\ xknob_drag_initial_value (snd (start_dragging ev w))
     = Some (get_value (knobs w xknob))
  /\ knobs (snd (start_dragging ev w)) = knobs w
  /\ drag_listeners_registered (ownerDocument (knobs w xknob))
       (listeners (snd (start_dragging ev w))).
Proof.
  intros T F.
  assert (C : String.eqb (type ev) "mousedown" && negb (Z.eqb (button ev) 0)
              = false).
  { destruct T as [T | T].
    - apply String.eqb_neq in T. rewrite T. reflexivity.
    - rewrite T. apply andb_false_r. }
  unfold start_dragging. cbv zeta. rewrite C, F.
  cbn [fst snd].
  repeat (split; [reflexivity|]).
  apply (add_listeners_to_document_registered
           (HTMLElement (ownerDocument (knobs w xknob)))).
Qed.

Lemma pointer_down_starts_session_witness :
  (type press <> "mousedown" \/ button press = 0%Z)
  /\ find_shadow_root (currentTarget press) = Some (Some 0%nat)
  /\ defaultPrevented (fst (start_dragging press idle_world)) = true.
Proof.
  split; [right; reflexivity|]. split; [reflexivity|].
  apply (pointer_down_starts_session press idle_world 0%nat);
    [right; reflexivity | reflexivity].
Defined.

(** X16.  A pointer-down never dispatches an event, never changes an
    element and never writes to the console; and whatever was being
    dragged before, afterwards either nothing is dragged or the host of
    the shadow root above the node of the event is.  So a pointer-down in
    the middle of a drag ends that drag without a [change] event. *)
Theorem pointer_down_is_silent (ev : Event) (w : World) :
  dispatched (snd (start_dragging ev w)) = dispatched w
  /\ knobs (snd (start_dragging ev w)) = knobs w
  /\ console (snd (start_dragging ev w)) = console w
  /\ (xknob_being_dragged (snd (start_dragging ev w)) = None
      \/ exists xknob : ref,
           xknob_being_dragged (snd (start_dragging ev w)) = Some xknob
           /\ find_shadow_root (currentTarget ev) = Some (Some xknob)).
Proof.
  unfold start_dragging. cbv zeta.
  destruct (String.eqb (type ev) "mousedown" && negb (Z.eqb (button ev) 0));
    [repeat split; left; reflexivity|].
  destruct (find_shadow_root (currentTarget ev)) as [[x|]|];
    repeat split; try (left; reflexivity).
  right. exists x. split; reflexivity.
Qed.

Local Close Scope string_scope.

(** ** A drag step, further *)

Local Open Scope string_scope.

(** X17.  A pointer-move during a drag assigns the value of the dragged
    element and nothing else: its [divisions], [min] and [max] are as
    before, every other element is as before, the listeners, the dragged
    element and the initial value of the drag are as before. *)
Theorem drag_step_changes_only_the_value (ev : Event) (w : World)
    (xknob : ref) :
  xknob_being_dragged w = Some xknob ->
  same_configuration (knobs w xknob) (knobs (drag_rotate ev w) xknob)
  /\ (forall other : ref,
        other <> xknob -> knobs (drag_rotate ev w) other = knobs w other)
  /\ listeners (drag_rotate ev w) = listeners w
  /\ xknob_being_dragged (drag_rotate ev w) = Some xknob
  /\ xknob_drag_initial_value (drag_rotate ev w)
     = xknob_drag_initial_value w.
Proof.
  intros H.
  destruct (drag_rotate_active ev w xknob H)
    as (B & _ & _ & I & L & K & _).
  split; [rewrite K, update_knob_same; apply set_value_configuration|].
  split; [intros other N; rewrite K; apply update_knob_other, N|].
  repeat split; assumption.
Qed.

Lemma drag_step_changes_only_the_value_witness :
  xknob_being_dragged dragging_world = Some 0%nat
  /\ listeners (drag_rotate quarter_turn dragging_world)
     = listeners dragging_world.
Proof.
  split; [reflexivity|].
  apply (drag_step_changes_only_the_value quarter_turn dragging_world 0%nat).
  reflexivity.
Defined.

(** X18.  The loop of [start_dragging] climbs any number of parents: from
    a node [n] levels below a shadow root it finds the host of that root,
    and from a node [n] levels below a node without parent it finds
    nothing. *)
Theorem find_shadow_root_climbs (n : nat) (host : option ref) :
  find_shadow_root (descendant n (ShadowRoot host)) = Some host
  /\ find_shadow_root (descendant n TopNode) = None.
Proof.
  induction n as [|n [IH1 IH2]]; [split; reflexivity|].
  cbn [descendant find_shadow_root]. split; assumption.
Qed.

Local Close Scope string_scope.

(** ** The angle of the pointer *)

Lemma _get_mouse_angle_formula (ev : Event) (l r t b x y : R) :
  knob_center_rect ev = mkDOMRect (Fin l) (Fin r) (Fin t) (Fin b) ->
  pointer_position ev = (Fin x, Fin y) ->
  _get_mouse_angle ev
  = Fin (Math.atan2R (y + - (t + (b + - t) / 2)) (x + - (l + (r + - l) / 2))
         + PI / 2).
Proof.
  intros R P.
  unfold _get_mouse_angle, _get_center_position. fold (pointer_position ev).
  rewrite R, P.
  cbn [rect_left rect_right rect_top rect_bottom fst snd Num.sub Num.add
       Num.neg].
  rewrite !div_by_two. unfold Math.PI. rewrite div_by_two.
  reflexivity.
Qed.

Lemma atan2R_axes (dy dx : R) :
  (dx = 0 -> dy < 0 -> Math.atan2R dy dx = - (PI / 2))
  /\ (0 < dx -> dy = 0 -> Math.atan2R dy dx = 0)
  /\ (dx = 0 -> 0 < dy -> Math.atan2R dy dx = PI / 2)
  /\ (dx < 0 -> dy = 0 -> Math.atan2R dy dx = PI).
Proof.
  unfold Math.atan2R. repeat split; intros H1 H2; rcases; try lra.
  - subst dy. rewrite Rdiv_0_l, atan_0. reflexivity.
  - subst dy. rewrite Rdiv_0_l, atan_0. lra.
Qed.

(** X19.  The angle of the pointer is 0 straight above the centre of the
    knob and grows clockwise on the screen: a quarter of a turn ([PI/2]) to
    the right of the centre, half a turn ([PI]) below it, three quarters
    ([3 PI/2]) to its left. *)
Theorem mouse_angle_is_clockwise_from_up (ev : Event) (l r t b x y : R) :
  knob_center_rect ev = mkDOMRect (Fin l) (Fin r) (Fin t) (Fin b) ->
  pointer_position ev = (Fin x, Fin y) ->
  let cx := l + (r - l) / 2 in
  let cy := t + (b - t) / 2 in
  (x = cx -> y < cy -> _get_mouse_angle ev = Fin 0)
  /\ (cx < x -> y = cy -> _get_mouse_angle ev = Fin (PI / 2))
  /\ (x = cx -> cy < y -> _get_mouse_angle ev = Fin PI)
  /\ (x < cx -> y = cy -> _get_mouse_angle ev = Fin (3 * PI / 2)).
Proof.
  intros R P cx cy.
  rewrite (_get_mouse_angle_formula ev l r t b x y R P).
  destruct (atan2R_axes (y + - (t + (b + - t) / 2))
                        (x + - (l + (r + - l) / 2)))
    as (U & E & D & W).
  subst cx cy.
  repeat split; intros H1 H2; f_equal.
  - rewrite U by lra. lra.
  - rewrite E by lra. lra.
  - rewrite D by lra. lra.
  - rewrite W by lra. lra.
Qed.

Lemma mouse_angle_is_clockwise_from_up_witness :
  knob_center_rect press
  = mkDOMRect (Fin 50) (Fin 50) (Fin 50) (Fin 50)
  /\ pointer_position press = (Fin 50, Fin 0)
  /\ _get_mouse_angle press = Fin 0.
Proof.
  split; [reflexivity|]. split; [reflexivity|].
  apply (mouse_angle_is_clockwise_from_up press 50 50 50 50 50 0
           eq_refl eq_refl); lra.
Defined.

(** ** Half a turn there and back *)

Lemma delta_angle_of_sharp (a1 a0 : R) :
  - (PI / 2) < a0 <= 3 * PI / 2 -> - (PI / 2) < a1 <= 3 * PI / 2 ->
  exists d : R,
    delta_angle_of (Fin a1) (Some (Fin a0)) = Fin d
    /\ - PI < d <= PI
    /\ (d = a1 - a0 \/ d = a1 - a0 + 2 * PI \/ d = a1 - a0 - 2 * PI).
Proof.
  pose proof PI_RGT_0 as P. intros H0 H1.
  unfold delta_angle_of, Math.PI, Num.gt.
  cbn [to_number Num.sub Num.neg Num.add Num.lt Num.mul].
  destruct (Rltb (a1 + - a0) 0) eqn:C;
    [apply Rltb_true in C|apply Rltb_false in C];
    cbn [Num.lt Num.add Num.neg];
    match goal with
    | |- context [Rltb PI ?q] =>
        destruct (Rltb PI q) eqn:C';
        [apply Rltb_true in C'|apply Rltb_false in C']
    end;
    cbn [Num.add Num.neg];
    eexists; (split; [reflexivity|]); split; lra.
Qed.

Lemma drag_rotate_proposed (w : World) (xknob : ref) (ev0 ev1 : Event)
    (p : R) :
  xknob_being_dragged w = Some xknob ->
  xknob_drag_previous_angle w = Some (_get_mouse_angle ev0) ->
  xknob_drag_previous_value w = Some (Fin p) ->
  finite_pointer ev0 = true -> finite_pointer ev1 = true ->
  exists a0 a1 d : R,
    _get_mouse_angle ev0 = Fin a0 /\ _get_mouse_angle ev1 = Fin a1
    /\ - PI < d <= PI
    /\ (d = a1 - a0 \/ d = a1 - a0 + 2 * PI \/ d = a1 - a0 - 2 * PI)
    /\ - (PI / 2) < a0 <= 3 * PI / 2 /\ - (PI / 2) < a1 <= 3 * PI / 2
    /\ xknob_drag_previous_value (drag_rotate ev1 w)
       = Some (Fin (p + d / PI / 2)).
Proof.
  intros B A V F0 F1.
  destruct (_get_mouse_angle_range ev0 F0) as (a0 & E0 & R0).
  destruct (_get_mouse_angle_range ev1 F1) as (a1 & E1 & R1).
  destruct (delta_angle_of_sharp a1 a0 R0 R1) as (d & D & RD & M).
  exists a0, a1, d. repeat (split; [assumption|]).
  destruct (drag_rotate_active ev1 w xknob B) as (_ & _ & PV & _).
  rewrite PV. unfold proposed_value.
  rewrite A, E0, E1, D, V, div_by_PI, div_by_two. reflexivity.
Qed.

(** X21.  Half a turn there and back counts as a whole turn: when the two
    angles are exactly half a turn apart, both pointer-moves are taken as
    half a turn forward, and the proposed value ends one turn above what
    it was. *)
Theorem drag_half_turn_there_and_back (w : World) (xknob : ref)
    (ev0 ev1 ev2 : Event) (p a0 a1 : R) :
  xknob_being_dragged w = Some xknob ->
  xknob_drag_previous_angle w = Some (_get_mouse_angle ev0) ->
  xknob_drag_previous_value w = Some (Fin p) ->
  finite_pointer ev0 = true -> finite_pointer ev1 = true ->
  _get_mouse_angle ev2 = _get_mouse_angle ev0 ->
  _get_mouse_angle ev0 = Fin a0 -> _get_mouse_angle ev1 = Fin a1 ->
  a1 - a0 = PI \/ a1 - a0 = - PI ->
  xknob_drag_previous_value (drag_rotate ev1 w) = Some (Fin (p + / 2))
  /\ xknob_drag_previous_value (drag_rotate ev2 (drag_rotate ev1 w))
     = Some (Fin (p + 1)).
Proof.
  intros B A V F0 F1 E2 E0 E1 O. pose proof PI_RGT_0 as P.
  destruct (drag_rotate_proposed w xknob ev0 ev1 p B A V F0 F1)
    as (a0' & a1' & d & E0' & E1' & RD & M & R0 & R1 & V1).
  assert (a0' = a0) by congruence. assert (a1' = a1) by congruence.
  subst a0' a1'.
  assert (Dd : d = PI) by (destruct O, M as [M | [M | M]]; lra).
  destruct (drag_rotate_active ev1 w xknob B) as (B1 & A1 & _).
  destruct (delta_angle_of_sharp a0 a1 R1 R0) as (d' & D' & RD' & M').
  assert (Dd' : d' = PI) by (destruct O, M' as [M' | [M' | M']]; lra).
  destruct (drag_rotate_active ev2 (drag_rotate ev1 w) xknob B1)
    as (_ & _ & PV & _).
  split.
  - rewrite V1, Dd. do 2 f_equal. field. lra.
  - rewrite PV. unfold proposed_value.
    rewrite A1, V1, E2, E0, E1, D', div_by_PI, div_by_two.
    cbn [to_number Num.add]. do 2 f_equal.
    rewrite Dd, Dd'. field. lra.
Qed.

Lemma half_turn_angle : _get_mouse_angle half_turn = Fin PI.
Proof.
  rewrite (_get_mouse_angle_formula half_turn 50 50 50 50 50 100 eq_refl
             eq_refl).
  match goal with
  | |- context [Math.atan2R ?dy ?dx] =>
      destruct (atan2R_axes dy dx) as (_ & _ & D & _)
  end.
  rewrite D by lra. f_equal. lra.
Qed.

Lemma drag_half_turn_there_and_back_witness :
  xknob_being_dragged dragging_world = Some 0%nat
  /\ xknob_drag_previous_angle dragging_world = Some (_get_mouse_angle press)
  /\ xknob_drag_previous_value dragging_world = Some (Fin 0)
  /\ finite_pointer press = true /\ finite_pointer half_turn = true
  /\ _get_mouse_angle press = Fin 0 /\ _get_mouse_angle half_turn = Fin PI
  /\ (PI - 0 = PI \/ PI - 0 = - PI)
  /\ xknob_drag_previous_value
       (drag_rotate press (drag_rotate half_turn dragging_world))
     = Some (Fin (0 + 1)).
Proof.
  assert (O : PI - 0 = PI \/ PI - 0 = - PI) by (left; lra).
  repeat (split; [first [reflexivity | exact press_angle
                        | exact half_turn_angle | exact O]|]).
  apply (drag_half_turn_there_and_back dragging_world 0%nat press half_turn
           press 0 0 PI eq_refl eq_refl eq_refl eq_refl eq_refl eq_refl
           press_angle half_turn_angle O).
Defined.

(** ** A pointer-move without a position *)

Lemma add_NaN (x : number) : Num.add x NaN = NaN.
Proof. destruct x; reflexivity. Qed.

Lemma delta_angle_of_NaN (old : option number) :
  delta_angle_of NaN old = NaN.
Proof. reflexivity. Qed.

Local Open Scope list_scope.

(** X22.  A pointer-move whose angle is NaN (an event without coordinates
    and without a touch) spoils the drag: the assertion fails and is
    logged, the proposed value becomes NaN and the value of the element
    becomes the sanitised 0; and once the proposed value is NaN, every
    later pointer-move of the drag leaves it NaN and the value at the
    sanitised 0. *)
Theorem move_without_angle_spoils_the_drag (ev : Event) (w : World)
    (xknob : ref) :
  xknob_being_dragged w = Some xknob ->
  _get_mouse_angle ev = NaN \/ xknob_drag_previous_value w = Some NaN ->
  xknob_drag_previous_value (drag_rotate ev w) = Some NaN
  /\ get_value (knobs (drag_rotate ev w) xknob)
     = Fin (ValueTransform_apply (Fin 0) (_min (knobs w xknob))
              (_max (knobs w xknob)) (_divisions (knobs w xknob)))
  /\ (_get_mouse_angle ev = NaN ->
      console (drag_rotate ev w)
      = console w ++ [mkFailure NaN (xknob_drag_previous_angle w) NaN]).
Proof.
  intros B H.
  destruct (drag_rotate_active ev w xknob B)
    as (_ & _ & PV & _ & _ & K & _ & C).
  assert (P : proposed_value ev w = NaN).
  { unfold proposed_value. destruct H as [A | V].
    - rewrite A, delta_angle_of_NaN. cbn [Num.div]. apply add_NaN.
    - rewrite V. reflexivity. }
  split; [rewrite PV, P; reflexivity|].
  split.
  - rewrite K, update_knob_same, set_value_value, P. reflexivity.
  - intros A. rewrite C, A, delta_angle_of_NaN. reflexivity.
Qed.

Lemma move_without_angle_spoils_the_drag_witness :
  xknob_being_dragged dragging_world = Some 0%nat
  /\ (_get_mouse_angle move_without_position = NaN
      \/ xknob_drag_previous_value dragging_world = Some NaN)
  /\ xknob_drag_previous_value
       (drag_rotate move_without_position dragging_world) = Some NaN.
Proof.
  split; [reflexivity|]. split; [left; reflexivity|].
  apply (move_without_angle_spoils_the_drag move_without_position
           dragging_world 0%nat eq_refl (or_introl eq_refl)).
Defined.

(** ** The angle turned, up to whole turns *)

(** X23.  Between two events with finite coordinates, the angle turned that
    [drag_rotate] computes is the difference of the two angles, or that
    difference plus or minus a whole turn, whichever lies above [-PI] and
    not above [PI]; it is never [-PI]. *)
Theorem delta_angle_is_difference_modulo_turn (ev0 ev1 : Event) :
  finite_pointer ev0 = true -> finite_pointer ev1 = true ->
  exists a0 a1 d : R,
    _get_mouse_angle ev0 = Fin a0 /\ _get_mouse_angle ev1 = Fin a1
    /\ delta_angle_of (_get_mouse_angle ev1) (Some (_get_mouse_angle ev0))
       = Fin d
    /\ - PI < d <= PI
    /\ (d = a1 - a0 \/ d = a1 - a0 + 2 * PI \/ d = a1 - a0 - 2 * PI).
Proof.
  intros F0 F1.
  destruct (_get_mouse_angle_range ev0 F0) as (a0 & E0 & R0).
  destruct (_get_mouse_angle_range ev1 F1) as (a1 & E1 & R1).
  destruct (delta_angle_of_sharp a1 a0 R0 R1) as (d & D & RD & M).
  exists a0, a1, d. rewrite E0, E1. repeat split; try assumption; lra.
Qed.

Lemma delta_angle_is_difference_modulo_turn_witness :
  finite_pointer press = true /\ finite_pointer half_turn = true
  /\ exists a0 a1 d : R,
       _get_mouse_angle press = Fin a0 /\ _get_mouse_angle half_turn = Fin a1
       /\ delta_angle_of (_get_mouse_angle half_turn)
                         (Some (_get_mouse_angle press)) = Fin d
       /\ - PI < d <= PI
       /\ (d = a1 - a0 \/ d = a1 - a0 + 2 * PI \/ d = a1 - a0 - 2 * PI).
Proof.
  split; [reflexivity|]. split; [reflexivity|].
  apply (delta_angle_is_difference_modulo_turn press half_turn eq_refl
           eq_refl).
Defined.

(** ** The value of the dragged element *)





Lemma ValueTransform_apply_above_max (q m : R) (mn : option number)
    (d : number) :
  match d with Fin d' => Rleb 2 d' | _ => false end = false ->
  (forall mn' : R, mn = Some (Fin mn') -> mn' <= m) ->
  m <= q ->
  ValueTransform_apply (Fin q) mn (Some (Fin m)) d = m.
Proof.
  intros Q N H. unfold ValueTransform_apply. cbv zeta.
  assert (S : match d with
              | Fin d' => if Rleb 2 d' then IZR (round_half_up (q * d')) / d'
                          else q
              | _ => q
              end = q).
  { destruct d as [| | |d']; try reflexivity. rewrite Q. reflexivity. }
  rewrite S.
  destruct mn as [[| | |mn']|]; rcases; try lra;
    specialize (N mn' eq_refl); lra.
Qed.

(** X25.  Turning on beyond the maximum is silent but not forgotten: when
    the dragged element is not snapped, sits on its finite [max] (with no
    finite [min] above it) and a pointer-move proposes a value [q] at or
    above [max], the element stays on [max] and no event is dispatched,
    while the proposed value [q] is kept for the next step, so that the
    knob has to be turned back by the overshoot before its value moves. *)
Theorem drag_beyond_max_is_silent (ev : Event) (w : World) (xknob : ref)
    (m q : R) :
  xknob_being_dragged w = Some xknob ->
  quantizes (knobs w xknob) = false ->
  _max (knobs w xknob) = Some (Fin m) ->
  (forall mn : R, _min (knobs w xknob) = Some (Fin mn) -> mn <= m) ->
  get_value (knobs w xknob) = Fin m ->
  proposed_value ev w = Fin q -> m <= q ->
  get_value (knobs (drag_rotate ev w) xknob) = Fin m
  /\ dispatched (drag_rotate ev w) = dispatched w
  /\ xknob_drag_previous_value (drag_rotate ev w) = Some (Fin q).
Proof.
  intros B Q X N V P H.
  destruct (drag_rotate_active ev w xknob B)
    as (_ & _ & PV & _ & _ & K & D & _).
  assert (E : get_value (set_value (JNum (proposed_value ev w))
                                   (knobs w xknob)) = Fin m).
  { rewrite set_value_value, P, X. cbn [parseFloat]. f_equal.
    apply ValueTransform_apply_above_max; try assumption.
    unfold quantizes, Num.ge, Num.le in Q.
    destruct (_divisions (knobs w xknob)) as [| | |d]; try reflexivity.
    exact Q. }
  split; [rewrite K, update_knob_same; exact E|].
  split; [|rewrite PV, P; reflexivity].
  rewrite D, E, V.
  replace (Num.strict_neq (Fin m) (Fin m)) with false
    by (symmetry; apply strict_neq_Fin_false; reflexivity).
  apply app_nil_r.
Qed.

Lemma quarter_turn_proposed_at_max :
  proposed_value quarter_turn dragging_at_max = Fin (/ 4).
Proof.
  pose proof PI_RGT_0 as P.
  unfold proposed_value.
  change (xknob_drag_previous_angle dragging_at_max)
    with (Some (_get_mouse_angle press)).
  change (xknob_drag_previous_value dragging_at_max) with (Some (Fin 0)).
  rewrite press_angle, quarter_turn_angle.
  unfold delta_angle_of, Math.PI, Num.gt.
  cbn [to_number Num.sub Num.neg Num.add Num.lt Num.mul].
  rcases; try lra.
  fold Math.PI. rewrite div_by_PI, div_by_two. cbn [to_number Num.add].
  f_equal. field. lra.
Qed.

Lemma knob_at_max_not_snapped : quantizes knob_at_max = false.
Proof. unfold quantizes, Num.ge, Num.le. cbn. apply Rleb_false. lra. Qed.

Lemma drag_beyond_max_is_silent_witness :
  xknob_being_dragged dragging_at_max = Some 0%nat
  /\ quantizes (knobs dragging_at_max 0%nat) = false
  /\ _max (knobs dragging_at_max 0%nat) = Some (Fin 0)
  /\ get_value (knobs dragging_at_max 0%nat) = Fin 0
  /\ proposed_value quarter_turn dragging_at_max = Fin (/ 4)
  /\ 0 <= / 4
  /\ dispatched (drag_rotate quarter_turn dragging_at_max)
     = dispatched dragging_at_max.
Proof.
  assert (H : 0 <= / 4) by lra.
  split; [reflexivity|]. split; [exact knob_at_max_not_snapped|].
  split; [reflexivity|]. split; [reflexivity|].
  split; [exact quarter_turn_proposed_at_max|]. split; [exact H|].
  apply (drag_beyond_max_is_silent quarter_turn dragging_at_max 0%nat 0
           (/ 4) eq_refl knob_at_max_not_snapped eq_refl
           (fun mn E => match E in (_ = o)
                              return (match o with
                                      | Some (Fin _) => mn <= 0
                                      | _ => True
                                      end)
                        with eq_refl => I end)
           eq_refl quarter_turn_proposed_at_max H).
Defined.
